(** * snow-docs: the pager of [snow_docs/app.py]

    A shallow embedding of the [search] command of the Snowflake
    documentation CLI: the address of the request, the extraction loop with
    its category filter, the page display, the prompt interpretation of
    [_parse_prompt] and the interaction loop, followed by the properties of
    the pager and of the command as a whole.

    Python values are modelled as follows.
    - [int] is [Z] (unbounded).
    - [str] is [string]; a character is a code point below 256, so that the
      model covers ASCII and Latin-1 text.
    - [list] is [list]; [len] is [Z.of_nat (length _)].
    - The terminal is explicit: what [Prompt.ask] returns is an argument, what
      [rich.print] and [typer.launch] receive is a list of events. *)

From Stdlib Require Import ZArith Bool Ascii String DecimalString Lia.
From Stdlib Require DecimalFacts DecimalPos.
From stdpp Require Import base option list strings.

Local Open Scope string_scope.
Local Open Scope Z_scope.

(* [++] is kept for lists; strings are joined by [fstring] below. *)
#[local] Disable Notation "_ ++ _" : string_scope.

(** ** Text primitives of Python used by the program *)

Module Py.

(** Code point of a character. *)
Definition ord (c : ascii) : Z := Z.of_nat (nat_of_ascii c).

(** [str.lower] on one code point below 256: the upper-case letters are
    A-Z and the Latin-1 letters U+00C0-U+00DE without the sign U+00D7; each
    has its lower-case form 32 places further. *)
Definition is_upper (c : ascii) : bool :=
  let n := ord c in
  ((65 <=? n) && (n <=? 90))
  || ((192 <=? n) && (n <=? 214))
  || ((216 <=? n) && (n <=? 222)).

Definition lower_char (c : ascii) : ascii :=
  if is_upper c then ascii_of_nat (nat_of_ascii c + 32) else c.

(** [str.lower]. *)
Fixpoint lower (s : string) : string :=
  match s with
  | EmptyString => EmptyString
  | String c s' => String (lower_char c) (lower s')
  end.

(** White space as [int] skips it around a number: tab to carriage return
    and the space, and in text that is not pure ASCII also U+0085 and
    U+00A0. *)
Definition is_space (c : ascii) : bool :=
  let n := ord c in
  ((9 <=? n) && (n <=? 13)) || (n =? 32) || (n =? 133) || (n =? 160).

Fixpoint lstrip (s : string) : string :=
  match s with
  | EmptyString => EmptyString
  | String c s' => if is_space c then lstrip s' else s
  end.

Fixpoint rstrip (s : string) : string :=
  match s with
  | EmptyString => EmptyString
  | String c s' =>
      match rstrip s' with
      | EmptyString => if is_space c then EmptyString else String c EmptyString
      | t => String c t
      end
  end.

(** Value of a decimal digit. *)
Definition digit_val (c : ascii) : option Z :=
  let n := ord c in
  if (48 <=? n) && (n <=? 57) then Some (n - 48) else None.

Definition is_underscore (c : ascii) : bool := ord c =? 95.

(** The digits of a literal, most significant first: one underscore is
    allowed between two digits, nowhere else, and there is at least one
    digit.  [prev] tells whether the previous character was a digit. *)
Fixpoint digits_value (acc : Z) (prev : bool) (s : string) : option Z :=
  match s with
  | EmptyString => if prev then Some acc else None
  | String c s' =>
      if is_underscore c then
        if prev then digits_value acc false s' else None
      else
        match digit_val c with
        | Some d => digits_value (10 * acc + d) true s'
        | None => None
        end
  end.

Fixpoint count_digits (s : string) : Z :=
  match s with
  | EmptyString => 0
  | String c s' =>
      (if is_Some_dec (digit_val c) then 1 else 0) + count_digits s'
  end.

(** CPython refuses to convert a literal of more digits than this (the
    default of [sys.set_int_max_str_digits]). *)
Definition max_str_digits : Z := 4300.

Definition unsigned_value (s : string) : option Z :=
  if max_str_digits <? count_digits s then None
  else digits_value 0 false s.

(** [int(s)] for a string [s] in base ten; [None] stands for
    [ValueError]. *)
Definition int (s : string) : option Z :=
  match rstrip (lstrip s) with
  | EmptyString => None
  | String c s' =>
      if (ord c =? 43) then unsigned_value s'
      else if (ord c =? 45) then Z.opp <$> unsigned_value s'
      else unsigned_value (String c s')
  end.

(** [str(n)] for an integer [n]. *)
Definition str (n : Z) : string := NilZero.string_of_int (Z.to_int n).

(** [l[i]]; [None] stands for [IndexError].  A negative index counts from
    the end. *)
Definition getitem {A} (l : list A) (i : Z) : option A :=
  let n := Z.of_nat (length l) in
  if i <? 0 then
    if i + n <? 0 then None else l !! Z.to_nat (i + n)
  else l !! Z.to_nat i.

(** Bound of a slice brought into [0, len]. *)
Definition slice_bound (n i : Z) : Z :=
  if i <? 0 then Z.max (i + n) 0 else Z.min i n.

(** [l[lo:hi]]. *)
Definition slice {A} (l : list A) (lo hi : Z) : list A :=
  let n := Z.of_nat (length l) in
  let lo' := slice_bound n lo in
  let hi' := slice_bound n hi in
  take (Z.to_nat (hi' - lo')) (drop (Z.to_nat lo') l).

Definition len {A} (l : list A) : Z := Z.of_nat (length l).

End Py.

(** ** Data model *)

(** [class LinkType(str, Enum)]: the category printed under a search hit. *)
Module LinkType.
Inductive t := doc | knowledge_base.

Definition name (x : t) : string :=
  match x with doc => "doc" | knowledge_base => "knowledge_base" end.

Definition value (x : t) : string :=
  match x with doc => "Documentation" | knowledge_base => "Knowledge Base" end.

(** The call [LinkType(s)], a lookup by value; [None] stands for
    [ValueError]. *)
Definition of_value (s : string) : option t :=
  if String.eqb s (value doc) then Some doc
  else if String.eqb s (value knowledge_base) then Some knowledge_base
  else None.
End LinkType.

(** [class LinkTypeOptions(str, Enum)]: the values of [--filter]. *)
Module LinkTypeOptions.
Inductive t := doc | knowledge_base | both.

Definition name (x : t) : string :=
  match x with
  | doc => "doc" | knowledge_base => "knowledge_base" | both => "both"
  end.

Definition value (x : t) : string :=
  match x with doc => "doc" | knowledge_base => "k_base" | both => "both" end.

(** [x != y]: members of a [str] enumeration compare as their values. *)
Definition ne (x y : t) : bool := negb (String.eqb (value x) (value y)).
End LinkTypeOptions.

(** [class Link]. *)
Record Link := mkLink {
  text : string;
  link : string;
  link_type : LinkType.t
}.

(** What the extraction loop reads off one [<a>] element of the page:
    the text of its first [<span>] if there is one, its [href] if that is a
    string, and the text of its category [<div>] if there is one. *)
Record Anchor := mkAnchor {
  anchor_span : option string;
  anchor_href : option string;
  anchor_type_div : option string
}.

(** [class PromptResult], with the defaults of its fields. *)
Record PromptResult := mkPromptResult {
  limits : Z * Z;
  num : Z;
  reason : option string;
  cancel : bool
}.

Definition PromptResult_ (limits : Z * Z) : PromptResult :=
  mkPromptResult limits 0 None false.

(** The terminal and the browser, as the calls made on them.  An event
    records that the call is made with this argument; [rich.print] reads
    console markup in its argument and raises [MarkupError] on a closing tag
    without its opening tag, which the events do not record: see
    [no_markup] below. *)
Inductive event :=
  | Rich_print (s : string)      (* rich.print(s) *)
  | Prompt_ask (s : string)        (* Prompt.ask(s) *)
  | Typer_launch (url : string).  (* typer.launch(url) *)

Inductive exception := ValueError | IndexError | EOFError.

(** [typer.Exit(code)]; the code is 0 when none is given. *)
Record Exit := mkExit { exit_code : Z }.

(** How a call of a command ends: it returns a value or raises. *)
Inductive outcome :=
  | Returned (e : Exit)
  | Raised (x : exception).

(** ** The program *)

Definition tuple_ne (a b : Z * Z) : bool :=
  negb ((fst a =? fst b) && (snd a =? snd b)).

(** An f-string, as the concatenation of its pieces. *)
Definition fstring (pieces : list string) : string := String.concat "" pieces.

(** [_parse_prompt]; [answer] is what [Prompt.ask("Enter the number")]
    returned. *)
Definition _parse_prompt (limits : Z * Z) (page_size result_len : Z)
    (answer : string) : PromptResult :=
  let prompt := Py.lower answer in
  if String.eqb prompt "cancel" then
    mkPromptResult limits 0 None true
  else if String.eqb prompt "more" then
    if snd limits + page_size >? result_len then
      mkPromptResult limits 0 (Some "this is the last page") false
    else PromptResult_ (fst limits + page_size, snd limits + page_size)
  else if String.eqb prompt "back" then
    if fst limits =? 0 then
      mkPromptResult limits 0 (Some "cannot go back") false
    else PromptResult_ (fst limits - page_size, snd limits - page_size)
  else
    match Py.int prompt with
    | None =>
        mkPromptResult limits 0
          (Some (fstring ["unkown command "; prompt])) false
    | Some num =>
        if (num <? fst limits) || (num >? snd limits) || (num >? result_len)
        then
          mkPromptResult limits 0
            (Some "please specify the correct number") false
        else mkPromptResult limits (num - 1) None false
    end.

(** The rows of a page: the loop [for i, li in enumerate(...)] of
    [_display_page], from the counter [i]. *)
Fixpoint display_rows (start i : Z) (rows : list Link) : list event :=
  match rows with
  | [] => []
  | li :: rest =>
      let ind := i + start in
      Rich_print (fstring [Py.str (ind + 1); ". "; text li; " -> [green]";
                      LinkType.value (link_type li); "[/green]"])
        :: display_rows start (i + 1) rest
  end.

(** [_display_page], as the list of what it prints. *)
Definition _display_page (limits : Z * Z) (search_results : list Link)
    : list event :=
  let n := Py.len search_results in
  display_rows (fst limits) 0
    (Py.slice search_results (fst limits) (snd limits))
  ++ [Rich_print (fstring [Py.str (fst limits); "-";
                      Py.str (if snd limits <=? n then snd limits else n);
                      " out of "; Py.str n]);
      Rich_print ""]
  ++ (if snd limits <? n
      then [Rich_print "type `more` to see more results"] else [])
  ++ (if negb (fst limits =? 0)
      then [Rich_print "type `back` to see previous page"] else [])
  ++ [Rich_print "type `cancel` to [red]cancel"].

(** The loop [while True] of [search] and what follows it.  [answers] are
    what the successive calls of [Prompt.ask] return, in order (each the line
    the user typed, which [Prompt.ask] strips of the white space around it);
    each turn of the loop asks once, and asking when none is left raises
    [EOFError].  [out] is what has been printed so far. *)
Fixpoint interact (links : list Link) (page_size : Z) (answers : list string)
    (limits0 : Z * Z) (out : list event) : list event * outcome :=
  let out :=
    out ++ _display_page limits0 links ++ [Prompt_ask "Enter the number"] in
  match answers with
  | [] => (out, Raised EOFError)
  | answer :: answers' =>
      let result := _parse_prompt limits0 page_size (Py.len links) answer in
      if cancel result then
        (out ++ [Rich_print "[red]Canceled"], Returned (mkExit 0))
      else if tuple_ne (limits result) limits0 then
        interact links page_size answers' (limits result) out
      else
        match reason result with
        | Some r =>
            interact links page_size answers' limits0 (out ++ [Rich_print r])
        | None =>
            match Py.getitem links (num result) with
            | None => (out, Raised IndexError)
            | Some l =>
                (out ++ [Typer_launch (link l);
                         Rich_print "[green]Opened[/green]"],
                 Returned (mkExit 0))
            end
        end
  end.

(** The loop [for i, link in enumerate(links_html)] of [search]: either the
    command ends in it, or it leaves the list [links].  [links] is the list
    built so far. *)
Fixpoint collect (filter : LinkTypeOptions.t) (links_html : list Anchor)
    (links : list Link) : list event * (outcome + list Link) :=
  match links_html with
  | [] => ([], inr links)
  | a :: rest =>
      match anchor_span a with
      | None =>
          ([Rich_print "[red bold]ERROR[/red bold]"], inl (Returned (mkExit 1)))
      | Some link_text =>
          match anchor_href a with
          | None =>
              ([Rich_print "[red bold]ERROR[/red bold]"],
               inl (Returned (mkExit 1)))
          | Some link_href =>
              match anchor_type_div a with
              | None =>
                  ([Rich_print "[red bold]ERROR[/red bold]"],
                   inl (Returned (mkExit 1)))
              | Some type_text =>
                  match LinkType.of_value type_text with
                  | None => ([], inl (Raised ValueError))
                  | Some link_type =>
                      if LinkTypeOptions.ne filter LinkTypeOptions.both
                         && negb (String.eqb (LinkType.name link_type)
                                             (LinkTypeOptions.name filter))
                      then collect filter rest links
                      else collect filter rest
                             (links ++ [mkLink link_text link_href link_type])
                  end
              end
          end
      end
  end.

(** [search], from the point where the page has been fetched and its
    [<a class="text-link cursor-pointer">] elements found: [links_html] is that
    list. *)
Definition search (links_html : list Anchor) (filter : LinkTypeOptions.t)
    (page_size : Z) (answers : list string) : list event * outcome :=
  let out := [Rich_print "[bold blue]Choose the topic[/bold blue]"] in
  match collect filter links_html [] with
  | (printed, inl o) => (out ++ printed, o)
  | (printed, inr links) =>
      interact links page_size answers (0, page_size) (out ++ printed)
  end.

(** The exit status of the process.  Typer runs a command in Click's
    standalone mode: the status is the code of a [typer.Exit] that the command
    raises, 1 for another exception, and 0 when the command returns, whatever
    it returns.  [search] never raises [typer.Exit]. *)
Definition exit_status (o : outcome) : Z :=
  match o with
  | Returned _ => 0
  | Raised _ => 1
  end.

(** ** The request and the command [open] *)

Module Url.

(** [chr]. *)
Definition chr (n : Z) : ascii := ascii_of_nat (Z.to_nat n).

(** The bytes of one character in UTF-8: itself below 128, two bytes from
    128 to 255. *)
Definition utf8 (c : ascii) : list Z :=
  let n := Py.ord c in
  if n <? 128 then [n] else [192 + n / 64; 128 + n mod 64].

(** The characters [urllib.parse.quote] never escapes: the letters, the
    digits and [_.-~]. *)
Definition always_safe (b : Z) : bool :=
  ((65 <=? b) && (b <=? 90)) || ((97 <=? b) && (b <=? 122))
  || ((48 <=? b) && (b <=? 57))
  || (b =? 95) || (b =? 46) || (b =? 45) || (b =? 126).

(** One digit of [%02X]. *)
Definition hex_digit (d : Z) : ascii :=
  if d <? 10 then chr (48 + d) else chr (55 + d).

(** What [quote_plus] writes for one byte: the byte itself when it is
    always safe, [+] for a space, and [%XX] otherwise. *)
Definition quote_byte (b : Z) : string :=
  if always_safe b then String (chr b) EmptyString
  else if b =? 32 then "+"
  else String "%" (String (hex_digit (b / 16))
                     (String (hex_digit (b mod 16)) EmptyString)).

(** [urllib.parse.quote_plus(s)], with its default arguments. *)
Fixpoint quote_plus (s : string) : string :=
  match s with
  | EmptyString => EmptyString
  | String c s' =>
      String.append (String.concat "" (map quote_byte (utf8 c)))
                    (quote_plus s')
  end.

(** [sep.join(words)]. *)
Definition join (sep : string) (words : list string) : string :=
  String.concat sep words.

End Url.

(** The address [search] requests for the words of its prompt. *)
Definition search_url (prompt : list string) : string :=
  let prompt_text := Url.join " " prompt in
  let safe_prompt := Url.quote_plus prompt_text in
  fstring ["https://docs.snowflake.com/search?q="; safe_prompt; "&limit=100"].

(** The characters [quote_plus] can write. *)
Definition url_char (c : ascii) : bool :=
  Url.always_safe (Py.ord c) || Ascii.eqb c "+" || Ascii.eqb c "%".

(** A word made of characters that [quote_plus] never escapes. *)
Definition plain (word : string) : Prop :=
  forall c, c ∈ list_ascii_of_string word -> Url.always_safe (Py.ord c) = true.

(** The value of a digit of [%02X]. *)
Definition hex_val (c : ascii) : Z :=
  let n := Py.ord c in if n <? 58 then n - 48 else n - 55.

(** A reader of what [quote_plus] writes, used to tell queries apart: [+] is
    a space, [%XX] a byte, and two bytes from 192 on make one character. *)
Fixpoint unquote (s : string) : string :=
  match s with
  | EmptyString => EmptyString
  | String c s1 =>
      if Ascii.eqb c "+" then String " " (unquote s1)
      else if Ascii.eqb c "%" then
        match s1 with
        | String h1 (String h2 s3) =>
            let b := 16 * hex_val h1 + hex_val h2 in
            if b <? 128 then String (Url.chr b) (unquote s3)
            else
              match s3 with
              | String _ (String h3 (String h4 s6)) =>
                  let b' := 16 * hex_val h3 + hex_val h4 in
                  String (Url.chr ((b - 192) * 64 + (b' - 128))) (unquote s6)
              | _ => EmptyString
              end
        | _ => EmptyString
        end
      else String c (unquote s1)
  end.

(** [open_main_documnetaion_page], as what it does to the browser and the
    terminal; the [typer.Exit()] it builds is dropped, and it returns
    [None]. *)
Definition open_main_documnetaion_page : list event :=
  [Typer_launch "https://docs.snowflake.com";
   Rich_print "[green]Success![/green]"].

(** ** Notions of the specification *)



(** The pager's operations, as the answers that trigger them. *)
Definition advance (w : Z * Z) (page_size result_len : Z) : PromptResult :=
  _parse_prompt w page_size result_len "more".

Definition retreat (w : Z * Z) (page_size result_len : Z) : PromptResult :=
  _parse_prompt w page_size result_len "back".

(** A transition succeeds when it carries no message. *)
Definition succeeds (r : PromptResult) : Prop := reason r = None.

(** The windows the interaction loop can be in: it starts from
    [(0, page_size)] and replaces its window by the one of the result of
    [_parse_prompt], whatever the answer. *)
Inductive reachable (page_size result_len : Z) : Z * Z -> Prop :=
  | reachable_init : reachable page_size result_len (0, page_size)
  | reachable_step w answer :
      reachable page_size result_len w ->
      reachable page_size result_len
        (limits (_parse_prompt w page_size result_len answer)).

(** The category a filter mode selects; [both] selects no single one. *)
Definition category_of_mode (mode : LinkTypeOptions.t) : option LinkType.t :=
  match mode with
  | LinkTypeOptions.doc => Some LinkType.doc
  | LinkTypeOptions.knowledge_base => Some LinkType.knowledge_base
  | LinkTypeOptions.both => None
  end.

#[global] Instance LinkType_eq_dec : EqDecision LinkType.t.
Proof. solve_decision. Defined.

(** An element the extraction loop stops on: it lacks the span, the [href]
    string or the category marker. *)
Definition malformed (a : Anchor) : Prop :=
  anchor_span a = None \/ anchor_href a = None \/ anchor_type_div a = None.

(** The test by which the extraction loop skips a record of category [c]. *)
Definition skipped (mode : LinkTypeOptions.t) (c : LinkType.t) : bool :=
  LinkTypeOptions.ne mode LinkTypeOptions.both
  && negb (String.eqb (LinkType.name c) (LinkTypeOptions.name mode)).

(** The element from which the extraction loop reads the record [r]. *)
Definition anchor_of (r : Link) : Anchor :=
  mkAnchor (Some (text r)) (Some (link r))
           (Some (LinkType.value (link_type r))).

(** The line of a page for the result [li] under the number [n]. *)
Definition result_row (n : Z) (li : Link) : event :=
  Rich_print (fstring [Py.str n; ". "; text li; " -> [green]";
                       LinkType.value (link_type li); "[/green]"]).

(** The lines that close a page: the footer, an empty line and the hints. *)
Definition page_hints (limits : Z * Z) (n : Z) : list event :=
  (if snd limits <? n
   then [Rich_print "type `more` to see more results"] else [])
  ++ (if negb (fst limits =? 0)
      then [Rich_print "type `back` to see previous page"] else [])
  ++ [Rich_print "type `cancel` to [red]cancel"].

(** The number that the decimal numeral [d] denotes when its digits are read
    after the number [acc], most significant digit first. *)
Fixpoint uint_value (acc : Z) (d : Decimal.uint) : Z :=
  match d with
  | Decimal.Nil => acc
  | Decimal.D0 d => uint_value (10 * acc) d
  | Decimal.D1 d => uint_value (10 * acc + 1) d
  | Decimal.D2 d => uint_value (10 * acc + 2) d
  | Decimal.D3 d => uint_value (10 * acc + 3) d
  | Decimal.D4 d => uint_value (10 * acc + 4) d
  | Decimal.D5 d => uint_value (10 * acc + 5) d
  | Decimal.D6 d => uint_value (10 * acc + 6) d
  | Decimal.D7 d => uint_value (10 * acc + 7) d
  | Decimal.D8 d => uint_value (10 * acc + 8) d
  | Decimal.D9 d => uint_value (10 * acc + 9) d
  end.

(** A string of decimal digits. *)
Definition digits_only (s : string) : Prop :=
  Forall (fun c => is_Some (Py.digit_val c)) (list_ascii_of_string s).

(** Text that holds no opening bracket: [rich.print] finds no markup tag in
    it, and cannot raise [MarkupError] on it nor on a line of a page built
    around it. *)
Definition no_markup (s : string) : bool :=
  forallb (fun c => negb (Ascii.eqb c "[")) (list_ascii_of_string s).

(** Results whose titles hold no opening bracket. *)
Definition plain_titles (links : list Link) : bool :=
  forallb (fun li => no_markup (text li)) links.

(** Sample data: [n] results, alternating between the two categories. *)
Definition sample_link (k : nat) : Link :=
  mkLink (fstring ["topic "; Py.str (Z.of_nat k)])
         (fstring ["https://docs.snowflake.com/t"; Py.str (Z.of_nat k)])
         (if Nat.even k then LinkType.doc else LinkType.knowledge_base).

Definition sample_links (n : nat) : list Link := map sample_link (seq 1 n).

(** * Properties *)

(** ** The text primitives on examples *)

Example int_examples :
  Py.int "12" = Some 12 /\ Py.int " -7 " = Some (-7)
  /\ Py.int "+1_000" = Some 1000
  /\ Py.int "007" = Some 7 /\ Py.int "1__0" = None /\ Py.int "_1" = None
  /\ Py.int "1_" = None /\ Py.int "" = None /\ Py.int "-" = None
  /\ Py.int "more" = None /\ Py.int "1 2" = None /\ Py.int "0" = Some 0.
Proof. repeat split; reflexivity. Qed.

Example lower_examples :
  Py.lower "MoRe" = "more" /\ Py.lower "XYZ 12_[" = "xyz 12_[".
Proof. split; reflexivity. Qed.

Example str_examples :
  Py.str 0 = "0" /\ Py.str 12 = "12" /\ Py.str (-3) = "-3".
Proof. repeat split; reflexivity. Qed.

Example slice_examples :
  Py.slice [1; 2; 3; 4; 5; 6; 7] 5 10 = [6; 7]
  /\ Py.slice [1; 2; 3] 0 (-1) = [1; 2]
  /\ Py.getitem [1; 2; 3] (-1) = Some 3
  /\ Py.getitem (@nil Z) (-1) = None
  /\ Py.getitem [1; 2; 3] 3 = None.
Proof. repeat split; reflexivity. Qed.

(** ** Lower-casing and integer parsing *)

Section Characters.

Local Ltac by_cases c :=
  destruct c as [[] [] [] [] [] [] [] []]; vm_compute; reflexivity.


Lemma is_space_lower_char c : Py.is_space (Py.lower_char c) = Py.is_space c.
Proof. by_cases c. Qed.

Lemma digit_val_lower_char c : Py.digit_val (Py.lower_char c) = Py.digit_val c.
Proof. by_cases c. Qed.

Lemma is_underscore_lower_char c :
  Py.is_underscore (Py.lower_char c) = Py.is_underscore c.
Proof. by_cases c. Qed.

Lemma ord_lower_char_plus c :
  (Py.ord (Py.lower_char c) =? 43) = (Py.ord c =? 43).
Proof. by_cases c. Qed.

Lemma ord_lower_char_minus c :
  (Py.ord (Py.lower_char c) =? 45) = (Py.ord c =? 45).
Proof. by_cases c. Qed.

End Characters.


Lemma lstrip_lower s : Py.lstrip (Py.lower s) = Py.lower (Py.lstrip s).
Proof.
  induction s as [|c s IH]; simpl; [reflexivity|].
  rewrite is_space_lower_char. now destruct (Py.is_space c).
Qed.

Lemma rstrip_lower s : Py.rstrip (Py.lower s) = Py.lower (Py.rstrip s).
Proof.
  induction s as [|c s IH]; simpl; [reflexivity|].
  rewrite IH, is_space_lower_char.
  destruct (Py.rstrip s); simpl; [now destruct (Py.is_space c)|reflexivity].
Qed.

Lemma digits_value_lower s : forall acc prev,
  Py.digits_value acc prev (Py.lower s) = Py.digits_value acc prev s.
Proof.
  induction s as [|c s IH]; intros acc prev; simpl; [reflexivity|].
  rewrite is_underscore_lower_char, digit_val_lower_char.
  destruct (Py.is_underscore c).
  - destruct prev; [apply IH|reflexivity].
  - destruct (Py.digit_val c); [apply IH|reflexivity].
Qed.

Lemma count_digits_lower s : Py.count_digits (Py.lower s) = Py.count_digits s.
Proof.
  induction s as [|c s IH]; simpl; [reflexivity|].
  now rewrite digit_val_lower_char, IH.
Qed.

Lemma unsigned_value_lower s :
  Py.unsigned_value (Py.lower s) = Py.unsigned_value s.
Proof.
  unfold Py.unsigned_value. now rewrite count_digits_lower, digits_value_lower.
Qed.

(** [int] does not see the case of letters. *)
Lemma int_lower s : Py.int (Py.lower s) = Py.int s.
Proof.
  unfold Py.int. rewrite lstrip_lower, rstrip_lower.
  destruct (Py.rstrip (Py.lstrip s)) as [|c t]; simpl; [reflexivity|].
  rewrite ord_lower_char_plus, ord_lower_char_minus.
  change (String (Py.lower_char c) (Py.lower t)) with (Py.lower (String c t)).
  now rewrite !unsigned_value_lower.
Qed.

(** ** The branches of [_parse_prompt] *)

Section Branches.

Variables (w : Z * Z) (page_size result_len : Z).

Lemma advance_eq :
  advance w page_size result_len =
  if snd w + page_size >? result_len
  then mkPromptResult w 0 (Some "this is the last page") false
  else PromptResult_ (fst w + page_size, snd w + page_size).
Proof. reflexivity. Qed.

Lemma retreat_eq :
  retreat w page_size result_len =
  if fst w =? 0
  then mkPromptResult w 0 (Some "cannot go back") false
  else PromptResult_ (fst w - page_size, snd w - page_size).
Proof. reflexivity. Qed.

(** A line that [int] accepts is none of the keywords. *)
Lemma int_not_keyword line n :
  Py.int line = Some n ->
  String.eqb (Py.lower line) "cancel" = false
  /\ String.eqb (Py.lower line) "more" = false
  /\ String.eqb (Py.lower line) "back" = false.
Proof.
  intros Hint. rewrite <- int_lower in Hint.
  repeat split; apply not_true_is_false; intros Heq;
    apply String.eqb_eq in Heq; rewrite Heq in Hint; discriminate Hint.
Qed.

Lemma parse_prompt_number line n :
  Py.int line = Some n ->
  _parse_prompt w page_size result_len line =
  if (n <? fst w) || (n >? snd w) || (n >? result_len)
  then mkPromptResult w 0 (Some "please specify the correct number") false
  else mkPromptResult w (n - 1) None false.
Proof.
  intros Hint. destruct (int_not_keyword line n Hint) as (Hc & Hm & Hb).
  unfold _parse_prompt. rewrite Hc, Hm, Hb, int_lower, Hint. reflexivity.
Qed.

Lemma parse_prompt_unknown line :
  String.eqb (Py.lower line) "cancel" = false ->
  String.eqb (Py.lower line) "more" = false ->
  String.eqb (Py.lower line) "back" = false ->
  Py.int line = None ->
  _parse_prompt w page_size result_len line =
  mkPromptResult w 0 (Some (fstring ["unkown command "; Py.lower line])) false.
Proof.
  intros Hc Hm Hb Hint.
  unfold _parse_prompt. rewrite Hc, Hm, Hb, int_lower, Hint. reflexivity.
Qed.

(** Whatever the answer, the window of the result is the same window, the
    next one or the previous one. *)
Lemma limits_parse_prompt line :
  let w' := limits (_parse_prompt w page_size result_len line) in
  w' = w
  \/ w' = (fst w + page_size, snd w + page_size)
        /\ snd w + page_size <= result_len
  \/ w' = (fst w - page_size, snd w - page_size) /\ fst w <> 0.
Proof.
  unfold _parse_prompt.
  destruct (String.eqb (Py.lower line) "cancel"); [now left|].
  destruct (String.eqb (Py.lower line) "more").
  { destruct (Z.gtb_spec (snd w + page_size) result_len);
      [now left | right; left; simpl; split; [reflexivity | lia]]. }
  destruct (String.eqb (Py.lower line) "back").
  { destruct (Z.eqb_spec (fst w) 0);
      [now left | right; right; simpl; split; [reflexivity | assumption]]. }
  destruct (Py.int (Py.lower line)) as [n|]; [|now left].
  destruct ((n <? fst w) || (n >? snd w) || (n >? result_len)); now left.
Qed.

End Branches.

(** ** When the pager moves *)

Lemma advance_fails_iff w page_size result_len :
  ~ succeeds (advance w page_size result_len)
  <-> snd w + page_size > result_len.
Proof.
  rewrite advance_eq. unfold succeeds.
  destruct (Z.gtb_spec (snd w + page_size) result_len); simpl;
    split; intros Hx; try lia; try discriminate; now elim Hx.
Qed.

Lemma retreat_fails_iff w page_size result_len :
  ~ succeeds (retreat w page_size result_len) <-> fst w = 0.
Proof.
  rewrite retreat_eq. unfold succeeds.
  destruct (Z.eqb_spec (fst w) 0); simpl;
    split; intros Hx; try lia; try discriminate; now elim Hx.
Qed.

Lemma select_succeeds_iff w page_size result_len line n :
  Py.int line = Some n ->
  succeeds (_parse_prompt w page_size result_len line)
  <-> fst w <= n <= snd w /\ n <= result_len.
Proof.
  intros Hint. rewrite (parse_prompt_number _ _ _ _ _ Hint). unfold succeeds.
  destruct (Z.ltb_spec n (fst w)), (Z.gtb_spec n (snd w)),
    (Z.gtb_spec n result_len); simpl; split; intros Hx;
    try lia; try discriminate; reflexivity.
Qed.

(** C1 (defect of the code).  With twelve results and pages of five, the
    window [(5, 10)] does not reach the end of the results and
    [_display_page] invites the user to type [more], yet the answer [more] is
    refused with the last-page message: the guard compares [end + page_size]
    with the number of results, not [end]. *)
Theorem more_refused_before_the_end :
  snd (5, 10) < Py.len (sample_links 12)
  /\ In (Rich_print "type `more` to see more results")
        (_display_page (5, 10) (sample_links 12))
  /\ advance (5, 10) 5 (Py.len (sample_links 12))
     = mkPromptResult (5, 10) 0 (Some "this is the last page") false.
Proof.
  split; [reflexivity|]. split; [|reflexivity].
  vm_compute. tauto.
Qed.

(** C2 (defect of the code).  The rows of a window [(start, end)] are
    numbered [start + 1] to [end], but the number [start] itself is accepted:
    on the first page the answer [0] is a successful selection of index [-1],
    and on the page [(5, 10)] the answer [5] selects a row of the previous
    page. *)
Theorem select_accepts_the_window_start :
  _parse_prompt (0, 5) 5 12 "0" = mkPromptResult (0, 5) (-1) None false
  /\ _parse_prompt (5, 10) 5 12 "5" = mkPromptResult (5, 10) 4 None false
  /\ ~ (fst (0, 5) < 0) /\ ~ (fst (5, 10) < 5).
Proof. repeat split; try reflexivity; simpl; lia. Qed.

(** One turn of the interaction loop. *)
Lemma interact_cons links page_size answer answers w out :
  interact links page_size (answer :: answers) w out =
  let shown :=
    out ++ _display_page w links ++ [Prompt_ask "Enter the number"] in
  let result := _parse_prompt w page_size (Py.len links) answer in
  if cancel result then
    (shown ++ [Rich_print "[red]Canceled"], Returned (mkExit 0))
  else if tuple_ne (limits result) w then
    interact links page_size answers (limits result) shown
  else
    match reason result with
    | Some r => interact links page_size answers w (shown ++ [Rich_print r])
    | None =>
        match Py.getitem links (num result) with
        | None => (shown, Raised IndexError)
        | Some l =>
            (shown ++ [Typer_launch (link l);
                       Rich_print "[green]Opened[/green]"],
             Returned (mkExit 0))
        end
    end.
Proof. reflexivity. Qed.

(** Evaluates the result of [_parse_prompt] on a concrete window and answer,
    then the tests the loop makes on it. *)
Ltac eval_answer :=
  match goal with
  | |- context [_parse_prompt ?w ?p ?n ?a] =>
      let r := eval vm_compute in (_parse_prompt w p n a) in
      change (_parse_prompt w p n a) with r
  end;
  cbn [cancel limits reason num tuple_ne fst snd Z.eqb Pos.eqb andb negb].

(** C3.  Twelve results, pages of five: from the first window [(0, 5)] the
    answer [more] gives [(5, 10)], a second [more] is refused with the
    message [this is the last page] and leaves [(5, 10)], and [back] gives
    [(0, 5)] again; the interaction loop goes through exactly these windows. *)
Theorem twelve_results_pages_of_five (links : list Link) :
  Py.len links = 12 ->
  let shown w := _display_page w links ++ [Prompt_ask "Enter the number"] in
  advance (0, 5) 5 (Py.len links) = PromptResult_ (5, 10)
  /\ advance (5, 10) 5 (Py.len links)
     = mkPromptResult (5, 10) 0 (Some "this is the last page") false
  /\ retreat (5, 10) 5 (Py.len links) = PromptResult_ (0, 5)
  /\ forall answers out,
       interact links 5 ("more" :: "more" :: "back" :: answers) (0, 5) out
       = interact links 5 answers (0, 5)
           ((((out ++ shown (0, 5)) ++ shown (5, 10))
               ++ [Rich_print "this is the last page"]) ++ shown (5, 10)).
Proof.
  intros Hlen shown. rewrite Hlen.
  split; [reflexivity|]. split; [reflexivity|]. split; [reflexivity|].
  intros answers out.
  do 3 (rewrite interact_cons, Hlen; cbv zeta; eval_answer).
  reflexivity.
Qed.

Lemma twelve_results_pages_of_five_witness :
  Py.len (sample_links 12) = 12
  /\ retreat (5, 10) 5 (Py.len (sample_links 12)) = PromptResult_ (0, 5).
Proof.
  split; [reflexivity|].
  apply (twelve_results_pages_of_five (sample_links 12)). reflexivity.
Defined.

(** ** The window stays aligned on pages *)

(** C4.  The loop starts from the window [(0, page_size)], and every window
    it can reach, whatever the answers, starts at a non-negative multiple of
    the page size (and spans one page), provided the page size is at least
    one. *)
Theorem start_is_page_aligned (page_size result_len : Z) (w : Z * Z) :
  1 <= page_size ->
  reachable page_size result_len w ->
  0 <= fst w
  /\ (exists k, 0 <= k /\ fst w = k * page_size)
  /\ snd w = fst w + page_size.
Proof.
  intros Hp Hreach.
  induction Hreach as [|w answer _ (Hnonneg & (k & Hk & Hstart) & Hend)].
  - simpl. split; [lia|]. split; [exists 0; lia | lia].
  - destruct (limits_parse_prompt w page_size result_len answer)
      as [-> | [(-> & _) | (-> & Hfirst)]]; simpl.
    + split; [assumption|]. split; [exists k; split; assumption | assumption].
    + split; [lia|]. split; [exists (k + 1); lia | lia].
    + assert (1 <= k) by nia.
      split; [nia|]. split; [exists (k - 1); lia | lia].
Qed.

Lemma start_is_page_aligned_witness :
  reachable 5 12 (5, 10) /\ 0 <= fst (5, 10).
Proof.
  assert (Hr : reachable 5 12 (5, 10)).
  { apply (reachable_step 5 12 (0, 5) "more"), reachable_init. }
  split; [exact Hr|].
  apply (start_is_page_aligned 5 12 (5, 10)); [lia | exact Hr].
Defined.

(** The window [search] hands to the loop is the first page. *)
Lemma search_starts_at_first_page links_html filter page_size answers
    printed links :
  collect filter links_html [] = (printed, inr links) ->
  search links_html filter page_size answers =
  interact links page_size answers (0, page_size)
    ([Rich_print "[bold blue]Choose the topic[/bold blue]"] ++ printed).
Proof. intros Hc. unfold search. now rewrite Hc. Qed.

(** C8.  When [more] succeeds and [back], applied to its result, succeeds
    too, the window is the one before [more]. *)
Theorem advance_then_retreat (w : Z * Z) (page_size result_len : Z) :
  succeeds (advance w page_size result_len) ->
  succeeds (retreat (limits (advance w page_size result_len))
                    page_size result_len) ->
  limits (retreat (limits (advance w page_size result_len))
                  page_size result_len) = w.
Proof.
  rewrite advance_eq. unfold succeeds.
  destruct (snd w + page_size >? result_len); simpl; [discriminate|].
  intros _. rewrite retreat_eq. simpl.
  destruct (fst w + page_size =? 0); simpl; [discriminate|].
  intros _. destruct w as [s e]. simpl. f_equal; lia.
Qed.

Lemma advance_then_retreat_witness :
  succeeds (advance (0, 5) 5 12)
  /\ succeeds (retreat (limits (advance (0, 5) 5 12)) 5 12)
  /\ limits (retreat (limits (advance (0, 5) 5 12)) 5 12) = (0, 5).
Proof.
  split; [reflexivity|]. split; [reflexivity|].
  apply (advance_then_retreat (0, 5) 5 12); reflexivity.
Defined.

(** ** The prompt interpreter *)


(** C6 (as stated, refuted).  The message for the answer [XYZ] carries the
    lower-cased text, not the text as typed. *)
Lemma unknown_text_is_not_verbatim :
  reason (_parse_prompt (0, 5) 5 12 "XYZ") = Some "unkown command xyz"
  /\ reason (_parse_prompt (0, 5) 5 12 "XYZ") <> Some "unkown command XYZ".
Proof. split; [reflexivity | discriminate]. Qed.

(** C6 (amended).  For a text returned by [Prompt.ask] that is no keyword
    once in lower case and that [int] refuses, [_parse_prompt] leaves the
    window as it is and gives the reason [unkown command] followed by the
    text in lower case; the loop passes this very string to [rich.print]
    and, when neither the text nor a title holds an opening bracket, goes on
    with the same window and the next answer. *)
Theorem unknown_command_message (w : Z * Z) (page_size result_len : Z)
    (line : string) :
  Py.lower line <> "cancel" ->
  Py.lower line <> "more" ->
  Py.lower line <> "back" ->
  Py.int line = None ->
  _parse_prompt w page_size result_len line
  = mkPromptResult w 0 (Some (fstring ["unkown command "; Py.lower line]))
      false
  /\ forall (links : list Link) (answers : list string) (out : list event),
       Py.len links = result_len ->
       no_markup (Py.lower line) = true ->
       plain_titles links = true ->
       interact links page_size (line :: answers) w out
       = interact links page_size answers w
           ((out ++ _display_page w links ++ [Prompt_ask "Enter the number"])
              ++ [Rich_print (fstring ["unkown command "; Py.lower line])]).
Proof.
  intros Hc Hm Hb Hint.
  assert (Hr : _parse_prompt w page_size result_len line
               = mkPromptResult w 0
                   (Some (fstring ["unkown command "; Py.lower line])) false)
    by (apply parse_prompt_unknown; try assumption; now apply String.eqb_neq).
  split; [exact Hr|].
  intros links answers out Hlen _ _.
  rewrite interact_cons, Hlen, Hr. cbv zeta. cbn [cancel limits reason].
  unfold tuple_ne. now rewrite !Z.eqb_refl.
Qed.

Lemma unknown_command_message_witness :
  _parse_prompt (0, 5) 5 12 "XYZ" =
  mkPromptResult (0, 5) 0 (Some "unkown command xyz") false.
Proof.
  refine (proj1 (unknown_command_message (0, 5) 5 12 "XYZ" _ _ _ _));
    [discriminate | discriminate | discriminate | reflexivity].
Defined.

(** ** Selecting the number zero *)

Lemma tuple_ne_same w : tuple_ne w w = false.
Proof. unfold tuple_ne. now rewrite !Z.eqb_refl. Qed.

(** [l[-1]] is the last element, and fails on the empty list. *)
Lemma getitem_minus_one {A} (l : list A) : Py.getitem l (-1) = last l.
Proof.
  unfold Py.getitem. rewrite last_lookup. simpl.
  destruct l as [|x l]; [reflexivity|].
  destruct (Z.ltb_spec (-1 + Z.of_nat (length (x :: l))) 0) as [Hlt|Hge];
    [simpl length in Hlt; lia|].
  f_equal. simpl length. lia.
Qed.

(** C10.  On a window (its end not below its start) that starts at 0, the
    answer [0] is a successful selection of the index [-1], which is no index
    of [0, N); the loop then opens [links[-1]]: the last result, or an
    [IndexError] when there is none. *)
Theorem zero_selects_index_minus_one (w : Z * Z) (page_size result_len : Z) :
  fst w = 0 -> fst w <= snd w -> 0 <= result_len ->
  let r := _parse_prompt w page_size result_len "0" in
  r = mkPromptResult w (-1) None false
  /\ ~ (0 <= num r < result_len)
  /\ forall (links : list Link) answers out,
       Py.len links = result_len ->
       interact links page_size ("0" :: answers) w out =
       let shown :=
         out ++ _display_page w links ++ [Prompt_ask "Enter the number"] in
       match last links with
       | Some l =>
           (shown ++ [Typer_launch (link l);
                      Rich_print "[green]Opened[/green]"],
            Returned (mkExit 0))
       | None => (shown, Raised IndexError)
       end.
Proof.
  intros Hstart Hend Hlen r. rewrite Hstart in Hend.
  assert (Hr : r = mkPromptResult w (-1) None false).
  { unfold r.
    rewrite (parse_prompt_number w page_size result_len "0" 0 eq_refl).
    rewrite Hstart.
    destruct (Z.gtb_spec 0 (snd w)), (Z.gtb_spec 0 result_len);
      try lia; reflexivity. }
  split; [exact Hr|]. split; [rewrite Hr; simpl; lia|].
  intros links answers out Hlinks.
  rewrite interact_cons, Hlinks. fold r. rewrite Hr. cbv zeta.
  cbn [cancel limits reason num]. rewrite tuple_ne_same, getitem_minus_one.
  reflexivity.
Qed.

Lemma zero_selects_index_minus_one_witness :
  _parse_prompt (0, 5) 5 0 "0" = mkPromptResult (0, 5) (-1) None false.
Proof.
  apply (zero_selects_index_minus_one (0, 5) 5 0); simpl;
    [reflexivity | lia | lia].
Defined.

(** ** The extraction loop and its filter *)

Lemma of_value_value c : LinkType.of_value (LinkType.value c) = Some c.
Proof. now destruct c. Qed.

Lemma skipped_spec mode c :
  skipped mode c = false <->
  mode = LinkTypeOptions.both \/ category_of_mode mode = Some c.
Proof.
  destruct mode, c; vm_compute; split; intros Hx;
    try reflexivity; try discriminate; try (now left); try (now right);
    destruct Hx as [Hx|Hx]; discriminate Hx.
Qed.

Lemma collect_cons_record mode r rest acc :
  collect mode (anchor_of r :: rest) acc =
  if skipped mode (link_type r) then collect mode rest acc
  else collect mode rest (acc ++ [r]).
Proof.
  destruct r as [t l c]. cbn [collect anchor_of anchor_span anchor_href
    anchor_type_div text link link_type].
  rewrite of_value_value. reflexivity.
Qed.

(** With the mode [both] nothing is skipped. *)
Lemma collect_both records : forall acc,
  collect LinkTypeOptions.both (map anchor_of records) acc
  = ([], inr (acc ++ records)).
Proof.
  induction records as [|r records IH]; intros acc; simpl map.
  - simpl. now rewrite app_nil_r.
  - rewrite collect_cons_record.
    replace (skipped LinkTypeOptions.both (link_type r)) with false
      by (now destruct (link_type r)).
    rewrite IH, <- app_assoc. reflexivity.
Qed.

(** With another mode the loop keeps the records of the mode's category. *)
Lemma collect_category mode c records : forall acc,
  category_of_mode mode = Some c ->
  collect mode (map anchor_of records) acc
  = ([], inr (acc ++ filter (fun r => link_type r = c) records)).
Proof.
  induction records as [|r records IH]; intros acc Hmode; simpl map.
  - simpl. now rewrite app_nil_r.
  - rewrite collect_cons_record, filter_cons.
    destruct (decide (link_type r = c)) as [Heq|Hne].
    + replace (skipped mode (link_type r)) with false.
      * rewrite IH by assumption. now rewrite <- app_assoc.
      * symmetry. apply skipped_spec. right. now rewrite Heq.
    + replace (skipped mode (link_type r)) with true; [now apply IH|].
      symmetry. apply not_false_is_true. intros Hs.
      apply skipped_spec in Hs as [->|Hs]; [discriminate|congruence].
Qed.

(** C7.  On the records of a page, the loop with the mode [both] gives the
    records as they are; with another mode it gives, in their order, exactly
    the records whose category is the mode's. *)
Theorem filter_stage (mode : LinkTypeOptions.t) (records : list Link) :
  let out := collect mode (map anchor_of records) [] in
  match mode with
  | LinkTypeOptions.both => out = ([], inr records)
  | _ =>
      exists kept,
        out = ([], inr kept)
        /\ kept `sublist_of` records
        /\ (forall r, r ∈ kept <->
                      r ∈ records /\ category_of_mode mode = Some (link_type r))
        /\ kept = filter (fun r => category_of_mode mode = Some (link_type r))
                         records
  end.
Proof.
  assert (Hcat : forall c, category_of_mode mode = Some c ->
    exists kept,
      collect mode (map anchor_of records) [] = ([], inr kept)
      /\ kept `sublist_of` records
      /\ (forall r, r ∈ kept <->
                    r ∈ records /\ category_of_mode mode = Some (link_type r))
      /\ kept = filter (fun r => category_of_mode mode = Some (link_type r))
                       records).
  { intros c Hc. exists (filter (fun r => link_type r = c) records).
    split; [now rewrite (collect_category mode c)|].
    split; [apply sublist_filter|].
    split.
    - intros r. rewrite list_elem_of_filter, Hc. split.
      + intros [-> Hin]. now split.
      + intros [Hin Heq]. split; [congruence | assumption].
    - apply list_filter_iff. intros r. rewrite Hc. split; congruence. }
  destruct mode; simpl.
  - now apply (Hcat LinkType.doc).
  - now apply (Hcat LinkType.knowledge_base).
  - apply collect_both.
Qed.

(** ** Malformed elements *)

(** The loop stops on the first malformed element: it prints [ERROR] and the
    command returns [typer.Exit(1)]. *)
Lemma collect_malformed mode good bad rest : forall acc,
  malformed bad ->
  collect mode (map anchor_of good ++ bad :: rest) acc
  = ([Rich_print "[red bold]ERROR[/red bold]"], inl (Returned (mkExit 1))).
Proof.
  induction good as [|r good IH]; intros acc Hbad.
  - destruct bad as [[s|] [h|] [d|]]; try reflexivity.
    destruct Hbad as [Hx|[Hx|Hx]]; discriminate Hx.
  - simpl map. simpl app. rewrite collect_cons_record.
    destruct (skipped mode (link_type r)); now apply IH.
Qed.

(** Nothing of the pager is shown then: the output is the heading and
    [ERROR]. *)
Lemma search_malformed mode good bad rest page_size answers :
  malformed bad ->
  search (map anchor_of good ++ bad :: rest) mode page_size answers
  = ([Rich_print "[bold blue]Choose the topic[/bold blue]";
      Rich_print "[red bold]ERROR[/red bold]"],
     Returned (mkExit 1)).
Proof.
  intros Hbad. unfold search. now rewrite collect_malformed.
Qed.

(** A selection or a cancellation returns [typer.Exit()]. *)
Lemma search_cancel_and_select :
  snd (search (map anchor_of (sample_links 12)) LinkTypeOptions.both 5
         ["more"; "CANCEL"])
  = Returned (mkExit 0)
  /\ snd (search (map anchor_of (sample_links 12)) LinkTypeOptions.both 5
            ["more"; "7"])
     = Returned (mkExit 0).
Proof. split; vm_compute; reflexivity. Qed.

(** C9 (defect of the code).  On an element without its span, [search]
    prints [ERROR] before any page is shown, but it returns the value
    [typer.Exit(1)] where it should raise it: the command ends normally and
    the status of the process is 0, not 1. *)
Theorem malformed_record_exit_is_returned :
  let bad := mkAnchor None (Some "/en/user-guide") (Some "Documentation") in
  malformed bad
  /\ forall mode page_size answers,
       search [bad] mode page_size answers
       = ([Rich_print "[bold blue]Choose the topic[/bold blue]";
           Rich_print "[red bold]ERROR[/red bold]"],
          Returned (mkExit 1))
       /\ exit_status (snd (search [bad] mode page_size answers)) = 0.
Proof.
  intros bad. split; [now left|].
  intros mode page_size answers. split; reflexivity.
Qed.

(** * Further properties of the program *)

(** ** The results of [_parse_prompt] and the loop *)

(** The four kinds of result: a cancellation, a move by one page, a message
    on the same window, and a selection on the same window. *)
Lemma parse_prompt_cases w page_size result_len line :
  let r := _parse_prompt w page_size result_len line in
  r = mkPromptResult w 0 None true
  \/ (r = PromptResult_ (fst w + page_size, snd w + page_size)
      /\ snd w + page_size <= result_len)
  \/ (r = PromptResult_ (fst w - page_size, snd w - page_size) /\ fst w <> 0)
  \/ (exists m, r = mkPromptResult w 0 (Some m) false)
  \/ (exists n, r = mkPromptResult w (n - 1) None false
                /\ fst w <= n <= snd w /\ n <= result_len).
Proof.
  unfold _parse_prompt.
  destruct (String.eqb (Py.lower line) "cancel"); [now left|].
  destruct (String.eqb (Py.lower line) "more").
  { destruct (Z.gtb_spec (snd w + page_size) result_len).
    - right; right; right; left. now eexists.
    - right; left. split; [reflexivity | lia]. }
  destruct (String.eqb (Py.lower line) "back").
  { destruct (Z.eqb_spec (fst w) 0).
    - right; right; right; left. now eexists.
    - right; right; left. now split. }
  destruct (Py.int (Py.lower line)) as [n|].
  - destruct (Z.ltb_spec n (fst w)), (Z.gtb_spec n (snd w)),
      (Z.gtb_spec n result_len); simpl;
      try (right; right; right; left; now eexists).
    right; right; right; right. exists n. split; [reflexivity | lia].
  - right; right; right; left. now eexists.
Qed.

(** Every window the loop reaches is the page number [k] for some [k >= 0],
    whatever the page size. *)
Lemma reachable_page page_size result_len w :
  reachable page_size result_len w ->
  exists k, 0 <= k /\ w = (k * page_size, k * page_size + page_size).
Proof.
  intros Hreach. induction Hreach as [|w answer _ (k & Hk & ->)].
  - exists 0. split; [lia | reflexivity].
  - destruct (limits_parse_prompt (k * page_size, k * page_size + page_size)
                page_size result_len answer)
      as [-> | [(-> & _) | (-> & Hfirst)]]; simpl in *.
    + exists k. now split.
    + exists (k + 1). split; [lia | f_equal; lia].
    + assert (k <> 0) by (intros ->; lia).
      exists (k - 1). split; [lia | f_equal; lia].
Qed.

Lemma tuple_ne_spec a b : tuple_ne a b = false <-> a = b.
Proof.
  destruct a as [a1 a2], b as [b1 b2]. unfold tuple_ne. simpl.
  destruct (Z.eqb_spec a1 b1), (Z.eqb_spec a2 b2); simpl;
    split; intros Hx; try discriminate; try congruence.
Qed.

Lemma getitem_nonneg {A} (l : list A) i :
  0 <= i -> Py.getitem l i = l !! Z.to_nat i.
Proof.
  intros Hi. unfold Py.getitem.
  destruct (Z.ltb_spec i 0); [lia | reflexivity].
Qed.

Lemma getitem_in_range {A} (l : list A) i :
  l <> [] -> -1 <= i < Py.len l -> is_Some (Py.getitem l i).
Proof.
  intros Hne Hi. unfold Py.len in Hi.
  destruct (Z.eq_dec i (-1)) as [->|Hneq].
  - rewrite getitem_minus_one. destruct l using rev_ind; [done|].
    rewrite last_snoc. now eexists.
  - rewrite getitem_nonneg by lia. apply lookup_lt_is_Some. lia.
Qed.

Lemma getitem_elem_of {A} (l : list A) i x :
  Py.getitem l i = Some x -> x ∈ l.
Proof.
  unfold Py.getitem. intros Hx.
  destruct (i <? 0); [destruct (i + Z.of_nat (length l) <? 0);
                        [discriminate|]|];
    eapply list_elem_of_lookup_2; exact Hx.
Qed.

(** X1.  An answer that is refused changes nothing, provided neither the
    message nor a title holds an opening bracket (so that [rich.print] cannot
    fail on them): the loop prints the message, shows the same page again and
    reads the next answer on the same window. *)
Theorem refused_answer_keeps_the_page (links : list Link) (page_size : Z)
    (w : Z * Z) (answer : string) (answers : list string) (out : list event)
    (m : string) :
  reason (_parse_prompt w page_size (Py.len links) answer) = Some m ->
  no_markup m = true ->
  plain_titles links = true ->
  interact links page_size (answer :: answers) w out
  = interact links page_size answers w
      ((out ++ _display_page w links ++ [Prompt_ask "Enter the number"])
         ++ [Rich_print m]).
Proof.
  intros Hm _ _. rewrite interact_cons. cbv zeta.
  destruct (parse_prompt_cases w page_size (Py.len links) answer)
    as [Hr | [(Hr & _) | [(Hr & _) | [(m' & Hr) | (n & Hr & _)]]]];
    rewrite Hr in Hm |- *; simpl in Hm; try discriminate Hm.
  injection Hm as ->. cbn [cancel limits reason]. now rewrite tuple_ne_same.
Qed.

Lemma refused_answer_keeps_the_page_witness :
  interact (sample_links 3) 5 ["back"; "cancel"] (0, 5) []
  = interact (sample_links 3) 5 ["cancel"] (0, 5)
      (([] ++ _display_page (0, 5) (sample_links 3)
           ++ [Prompt_ask "Enter the number"])
         ++ [Rich_print "cannot go back"]).
Proof.
  apply (refused_answer_keeps_the_page (sample_links 3) 5 (0, 5) "back");
    reflexivity.
Defined.

(** X2.  With at least one result the loop never fails on an index,
    whatever the page size and the answers: the only [IndexError] of the
    program is the selection on an empty list of results. *)
Theorem index_error_only_without_results (links : list Link) (page_size : Z)
    (answers : list string) (w : Z * Z) (out : list event) :
  links <> [] ->
  reachable page_size (Py.len links) w ->
  snd (interact links page_size answers w out) <> Raised IndexError.
Proof.
  intros Hne. revert w out.
  induction answers as [|answer answers IH]; intros w out Hreach;
    [simpl; discriminate|].
  rewrite interact_cons. cbv zeta.
  pose proof (reachable_step _ _ _ answer Hreach) as Hnext.
  destruct (parse_prompt_cases w page_size (Py.len links) answer)
    as [Hr | [(Hr & _) | [(Hr & _) | [(m & Hr) | (n & Hr & Hn & HN)]]]];
    rewrite Hr in Hnext |- *; cbn [cancel limits reason num PromptResult_] in *.
  - simpl. discriminate.
  - destruct (tuple_ne _ w) eqn:Hmove; [now apply IH|].
    destruct (getitem_in_range links 0 Hne) as [l ->]; [|simpl; discriminate].
    unfold Py.len. destruct links; [done | simpl length; lia].
  - destruct (tuple_ne _ w) eqn:Hmove; [now apply IH|].
    destruct (getitem_in_range links 0 Hne) as [l ->]; [|simpl; discriminate].
    unfold Py.len. destruct links; [done | simpl length; lia].
  - rewrite tuple_ne_same. now apply IH.
  - rewrite tuple_ne_same.
    destruct (reachable_page _ _ _ Hreach) as (k & Hk & ->). simpl in Hn.
    destruct (getitem_in_range links (n - 1) Hne) as [l ->];
      [nia | simpl; discriminate].
Qed.

Lemma index_error_only_without_results_witness :
  snd (interact (sample_links 2) 5 ["0"] (0, 5) []) <> Raised IndexError.
Proof.
  apply (index_error_only_without_results (sample_links 2) 5 ["0"] (0, 5) []);
    [discriminate | apply reachable_init].
Defined.

(** ** What a page shows *)

Lemma display_rows_length start rows : forall i,
  length (display_rows start i rows) = length rows.
Proof.
  induction rows as [|li rows IH]; intros i; simpl; [reflexivity|].
  now rewrite IH.
Qed.

Lemma display_rows_lookup start rows : forall i (k : nat),
  display_rows start i rows !! k
  = result_row (i + Z.of_nat k + start + 1) <$> rows !! k.
Proof.
  induction rows as [|li rows IH]; intros i k; [now destruct k|].
  destruct k as [|k]; cbn [display_rows lookup list_lookup fmap option_fmap
                           option_map].
  - replace (i + Z.of_nat 0 + start + 1) with (i + start + 1) by lia.
    reflexivity.
  - rewrite IH.
    replace (i + 1 + Z.of_nat k + start + 1)
      with (i + Z.of_nat (S k) + start + 1) by lia.
    reflexivity.
Qed.

(** A slice with bounds that do not count from the end. *)
Lemma slice_nonneg {A} (l : list A) lo hi :
  0 <= lo -> 0 <= hi ->
  Py.slice l lo hi
  = take (Z.to_nat (Z.min hi (Py.len l) - lo)) (drop (Z.to_nat lo) l).
Proof.
  intros Hlo Hhi. unfold Py.slice, Py.slice_bound, Py.len.
  destruct (Z.ltb_spec lo 0), (Z.ltb_spec hi 0); try lia.
  destruct (Z.le_gt_cases lo (Z.of_nat (length l))) as [Hin|Hout].
  - now rewrite (Z.min_l lo) by lia.
  - rewrite (Z.min_r lo) by lia.
    rewrite !drop_ge by lia. now rewrite !take_nil.
Qed.

Lemma slice_length {A} (l : list A) lo hi :
  0 <= lo -> 0 <= hi ->
  length (Py.slice l lo hi) = Z.to_nat (Z.min hi (Py.len l) - lo).
Proof.
  intros Hlo Hhi. rewrite slice_nonneg by assumption.
  rewrite length_take, length_drop. unfold Py.len. lia.
Qed.

Lemma slice_lookup {A} (l : list A) lo hi (i : nat) x :
  0 <= lo -> l !! i = Some x -> lo <= Z.of_nat i < hi ->
  Py.slice l lo hi !! (i - Z.to_nat lo)%nat = Some x.
Proof.
  intros Hlo Hx Hi. rewrite slice_nonneg by lia.
  pose proof (lookup_lt_Some _ _ _ Hx) as Hlt.
  rewrite lookup_take_lt by (unfold Py.len; lia).
  rewrite lookup_drop. rewrite <- Hx. f_equal. lia.
Qed.

Lemma display_page_eq w links :
  _display_page w links
  = display_rows (fst w) 0 (Py.slice links (fst w) (snd w))
    ++ [Rich_print
          (fstring [Py.str (fst w); "-";
                    Py.str (if snd w <=? Py.len links then snd w
                            else Py.len links);
                    " out of "; Py.str (Py.len links)]);
        Rich_print ""]
    ++ page_hints w (Py.len links).
Proof. reflexivity. Qed.

(** The line of a page on which a result of the window stands. *)
Lemma display_page_row w links (i : nat) li :
  0 <= fst w -> links !! i = Some li -> fst w <= Z.of_nat i < snd w ->
  _display_page w links !! (i - Z.to_nat (fst w))%nat
  = Some (result_row (Z.of_nat i + 1) li).
Proof.
  intros Hstart Hli Hi. rewrite display_page_eq.
  pose proof (slice_lookup links (fst w) (snd w) i li Hstart Hli Hi) as Hs.
  rewrite lookup_app_l
    by (rewrite display_rows_length; eapply lookup_lt_Some; exact Hs).
  rewrite display_rows_lookup, Hs. simpl. do 2 f_equal. lia.
Qed.

Lemma display_rows_imap start rows : forall i,
  display_rows start i rows
  = imap (fun (k : nat) li => result_row (i + Z.of_nat k + start + 1) li) rows.
Proof.
  induction rows as [|li rows IH]; intros i; [reflexivity|].
  cbn [display_rows imap]. f_equal.
  - unfold result_row. now replace (i + Z.of_nat 0 + start + 1)
      with (i + start + 1) by lia.
  - rewrite IH. apply imap_ext. intros k x _. simpl.
    now replace (i + 1 + Z.of_nat k + start + 1)
      with (i + Z.of_nat (S k) + start + 1) by lia.
Qed.

(** X3.  For a window with bounds that are not negative and titles without
    an opening bracket, the page is, line for line: the results of index
    [start] to [min end N - 1] in their order, the result of index
    [start + k] on line [k] under the number [start + k + 1]; the footer
    [start-min(end, N) out of N]; an empty line; the hints.  Nothing else is
    printed. *)
Theorem page_shows_the_window (w : Z * Z) (links : list Link) :
  0 <= fst w -> 0 <= snd w ->
  plain_titles links = true ->
  let n := Py.len links in
  let shown :=
    take (Z.to_nat (Z.min (snd w) n - fst w)) (drop (Z.to_nat (fst w)) links) in
  _display_page w links
  = imap (fun (k : nat) li => result_row (fst w + Z.of_nat k + 1) li) shown
    ++ [Rich_print (fstring [Py.str (fst w); "-"; Py.str (Z.min (snd w) n);
                             " out of "; Py.str n]);
        Rich_print ""]
    ++ page_hints w n
  /\ (forall (i : nat) li,
        links !! i = Some li -> fst w <= Z.of_nat i < snd w ->
        _display_page w links !! (i - Z.to_nat (fst w))%nat
        = Some (result_row (Z.of_nat i + 1) li))
  /\ length (_display_page w links)
     = (Z.to_nat (Z.min (snd w) n - fst w) + 2 + length (page_hints w n))%nat.
Proof.
  intros Hstart Hend _ n shown. split; [|split].
  - rewrite display_page_eq. fold n.
    rewrite display_rows_imap, slice_nonneg by assumption. fold n shown.
    f_equal.
    + apply imap_ext. intros k x _. simpl. f_equal. lia.
    + do 4 f_equal. unfold Z.min.
      destruct (Z.leb_spec (snd w) n) as [Hle|Hgt].
      * destruct (Z.compare_spec (snd w) n); try reflexivity; lia.
      * destruct (Z.compare_spec (snd w) n); try reflexivity; lia.
  - intros i li Hli Hi. now apply display_page_row.
  - rewrite display_page_eq.
    rewrite length_app, display_rows_length, slice_length by assumption.
    rewrite length_app. simpl. fold n. lia.
Qed.

Lemma page_shows_the_window_witness :
  _display_page (5, 10) (sample_links 12) !! (6 - Z.to_nat 5)%nat
  = Some (result_row (Z.of_nat 6 + 1) (sample_link 7)).
Proof.
  apply (page_shows_the_window (5, 10) (sample_links 12));
    [simpl; lia | simpl; lia | reflexivity | reflexivity | simpl; lia].
Defined.

(** X4.  What is shown is what is opened, on a window that does not start
    below 0 and with titles without an opening bracket: for a number [n]
    with [start < n <= end] that has a result, the page shows that result
    under [n], and any answer that [int] reads as [n] makes the loop open
    the link of that result and end with [typer.Exit()]. *)
Theorem typed_number_opens_its_row (links : list Link) (page_size : Z)
    (w : Z * Z) (answer : string) (answers : list string) (out : list event)
    (n : Z) (li : Link) :
  0 <= fst w ->
  plain_titles links = true ->
  Py.int answer = Some n ->
  fst w < n <= snd w ->
  links !! Z.to_nat (n - 1) = Some li ->
  _display_page w links !! (Z.to_nat (n - 1) - Z.to_nat (fst w))%nat
  = Some (result_row n li)
  /\ interact links page_size (answer :: answers) w out
     = ((out ++ _display_page w links ++ [Prompt_ask "Enter the number"])
          ++ [Typer_launch (link li); Rich_print "[green]Opened[/green]"],
        Returned (mkExit 0)).
Proof.
  intros Hstart _ Hint Hn Hli. split.
  - rewrite (display_page_row w links (Z.to_nat (n - 1)) li) by (auto; lia).
    do 2 f_equal. lia.
  - pose proof (lookup_lt_Some _ _ _ Hli) as Hlt.
    rewrite interact_cons. cbv zeta.
    rewrite (parse_prompt_number w page_size (Py.len links) answer n Hint).
    destruct (Z.ltb_spec n (fst w)); [lia|].
    destruct (Z.gtb_spec n (snd w)); [lia|].
    destruct (Z.gtb_spec n (Py.len links)); [unfold Py.len in *; lia|].
    cbn [orb cancel limits reason num]. rewrite tuple_ne_same.
    rewrite getitem_nonneg by lia. now rewrite Hli.
Qed.

Lemma typed_number_opens_its_row_witness :
  snd (interact (sample_links 12) 5 ["07"] (5, 10) [])
  = Returned (mkExit 0).
Proof.
  pose proof (typed_number_opens_its_row (sample_links 12) 5 (5, 10) "07"
                [] [] 7 (sample_link 7)) as Hopen.
  destruct Hopen as [_ ->];
    [simpl; lia | reflexivity | reflexivity | simpl; lia | reflexivity
     | reflexivity].
Defined.

(** A window other than the first page lies within the results. *)
Lemma reachable_within page_size result_len w :
  1 <= page_size ->
  reachable page_size result_len w ->
  fst w = 0 \/ snd w <= result_len.
Proof.
  intros Hp Hreach. induction Hreach as [|w answer _ IH]; [now left|].
  destruct (limits_parse_prompt w page_size result_len answer)
    as [-> | [(-> & Hle) | (-> & Hfirst)]]; simpl.
  - exact IH.
  - right. exact Hle.
  - right. destruct IH as [IH|IH]; [contradiction | lia].
Qed.

(** X5.  With a page size of at least one, every page the loop reaches
    after the first one is full: it lies within the results, and each of the
    numbers [start + 1] to [end] stands on it with its result. *)
Theorem later_pages_are_full (links : list Link) (page_size : Z) (w : Z * Z) :
  1 <= page_size ->
  reachable page_size (Py.len links) w ->
  fst w <> 0 ->
  snd w = fst w + page_size
  /\ snd w <= Py.len links
  /\ forall i : nat, fst w <= Z.of_nat i < snd w ->
       exists li, links !! i = Some li
                  /\ _display_page w links !! (i - Z.to_nat (fst w))%nat
                     = Some (result_row (Z.of_nat i + 1) li).
Proof.
  intros Hp Hreach Hfirst.
  destruct (reachable_page _ _ _ Hreach) as (k & Hk & Hw).
  destruct (reachable_within _ _ _ Hp Hreach) as [Hz|Hin]; [contradiction|].
  split; [subst w; simpl; lia|]. split; [exact Hin|].
  intros i Hi.
  destruct (lookup_lt_is_Some_2 links i) as [li Hli];
    [unfold Py.len in Hin; lia|].
  exists li. split; [exact Hli|].
  apply display_page_row; [subst w; simpl in *; nia | exact Hli | exact Hi].
Qed.

Lemma later_pages_are_full_witness :
  snd (5, 10) <= Py.len (sample_links 12).
Proof.
  apply (later_pages_are_full (sample_links 12) 5 (5, 10));
    [lia | apply (reachable_step 5 12 (0, 5) "more"), reachable_init
     | simpl; lia].
Defined.

(** X6.  With a page size of 0 the answer [more], in any letter case, does
    not turn a page: the window does not change, so the loop takes the result
    for a selection and opens the first result, or fails on an empty list. *)
Theorem page_size_zero_more_opens_first (links : list Link) (answer : string)
    (answers : list string) (out : list event) :
  Py.lower answer = "more" ->
  interact links 0 (answer :: answers) (0, 0) out
  = let shown :=
      out ++ _display_page (0, 0) links ++ [Prompt_ask "Enter the number"] in
    match head links with
    | Some li =>
        (shown ++ [Typer_launch (link li);
                   Rich_print "[green]Opened[/green]"],
         Returned (mkExit 0))
    | None => (shown, Raised IndexError)
    end.
Proof.
  intros Hmore. rewrite interact_cons. cbv zeta.
  unfold _parse_prompt. rewrite Hmore. cbn [String.eqb Ascii.eqb Bool.eqb].
  cbn [fst snd]. destruct (Z.gtb_spec (0 + 0) (Py.len links)) as [Hgt|_];
    [unfold Py.len in Hgt; lia|].
  cbn [cancel limits reason num PromptResult_]. rewrite tuple_ne_same.
  rewrite getitem_nonneg by lia. now destruct links.
Qed.

Lemma page_size_zero_more_opens_first_witness :
  snd (interact (sample_links 3) 0 ["More"] (0, 0) []) = Returned (mkExit 0).
Proof.
  rewrite (page_size_zero_more_opens_first (sample_links 3) "More" [] []);
    reflexivity.
Defined.

(** X7.  The window changes only on [more] and [back], in any letter case,
    and exactly when the page size is not 0 and the move is allowed: [more]
    when the next window ends within the results, [back] when the window does
    not start at 0.  No other answer moves the window. *)
Theorem window_moves_iff (w : Z * Z) (page_size result_len : Z)
    (answer : string) :
  limits (_parse_prompt w page_size result_len answer) <> w
  <-> page_size <> 0
      /\ ((Py.lower answer = "more" /\ snd w + page_size <= result_len)
          \/ (Py.lower answer = "back" /\ fst w <> 0)).
Proof.
  unfold _parse_prompt. destruct w as [s e]. cbn [fst snd].
  destruct (String.eqb_spec (Py.lower answer) "cancel") as [Hc|Hc].
  { simpl. rewrite Hc. split; [congruence|].
    intros (_ & [(Hx & _) | (Hx & _)]); discriminate Hx. }
  destruct (String.eqb_spec (Py.lower answer) "more") as [Hm|Hm].
  { rewrite Hm.
    destruct (Z.gtb_spec (e + page_size) result_len); simpl; split.
    - congruence.
    - intros (_ & [(_ & Hx) | (Hx & _)]); [lia | discriminate Hx].
    - intros Hne. split; [intros ->; apply Hne; f_equal; lia|].
      left. split; [reflexivity | lia].
    - intros (Hp & _) Heq. injection Heq as Hs _. lia. }
  destruct (String.eqb_spec (Py.lower answer) "back") as [Hb|Hb].
  { rewrite Hb.
    destruct (Z.eqb_spec s 0); simpl; split.
    - congruence.
    - intros (_ & [(Hx & _) | (_ & Hx)]); [discriminate Hx | lia].
    - intros Hne. split; [intros ->; apply Hne; f_equal; lia|].
      right. now split.
    - intros (Hp & _) Heq. injection Heq as Hs _. lia. }
  assert (Hsame : forall r, limits r = (s, e) ->
            (limits r <> (s, e) <->
             page_size <> 0
             /\ (Py.lower answer = "more" /\ e + page_size <= result_len
                 \/ Py.lower answer = "back" /\ s <> 0))).
  { intros r Hr. split; [congruence|].
    intros (_ & [(Hx & _) | (Hx & _)]); contradiction. }
  destruct (Py.int (Py.lower answer)) as [n|]; [|now apply Hsame].
  destruct ((n <? s) || (n >? e) || (n >? result_len)); now apply Hsame.
Qed.

(** X8.  An answer that [int] reads as the number [n] - with spaces around
    it, a sign, leading zeros or underscores - never moves the window; it is
    a selection of the index [n - 1] exactly when [start <= n <= end] and
    [n <= N], and is refused with one fixed message otherwise. *)
Theorem numeric_answer (w : Z * Z) (page_size result_len : Z)
    (answer : string) (n : Z) :
  Py.int answer = Some n ->
  let r := _parse_prompt w page_size result_len answer in
  (fst w <= n <= snd w /\ n <= result_len
   /\ r = mkPromptResult w (n - 1) None false)
  \/ (~ (fst w <= n <= snd w /\ n <= result_len)
      /\ r = mkPromptResult w 0 (Some "please specify the correct number")
               false).
Proof.
  intros Hint r. unfold r.
  rewrite (parse_prompt_number w page_size result_len answer n Hint).
  destruct (Z.ltb_spec n (fst w)), (Z.gtb_spec n (snd w)),
    (Z.gtb_spec n result_len); simpl;
    try (right; split; [lia | reflexivity]).
  left. repeat split; lia.
Qed.

Lemma numeric_answer_witness :
  _parse_prompt (5, 10) 5 12 "+0_8 " = mkPromptResult (5, 10) 7 None false.
Proof.
  destruct (numeric_answer (5, 10) 5 12 "+0_8 " 8 eq_refl)
    as [(_ & _ & Hr) | (Hno & _)]; [exact Hr|].
  exfalso. apply Hno. simpl. lia.
Defined.

(** ** The hints of a page and what the pager accepts *)

(** [str] of a number starts with a digit or with the minus sign. *)
Lemma str_head n :
  exists c s, Py.str n = String c s /\ c <> "t"%char.
Proof.
  unfold Py.str. destruct (Z.to_int n) as [d|d]; simpl.
  - destruct d; simpl; eexists _, _; (split; [reflexivity | discriminate]).
  - eexists _, _. split; [reflexivity | discriminate].
Qed.

Lemma fstring_str_head n piece pieces t :
  fstring (Py.str n :: piece :: pieces) <> String "t" t.
Proof.
  destruct (str_head n) as (c & s & -> & Hc).
  unfold fstring. simpl. intros Heq. injection Heq as Hx _. contradiction.
Qed.

Lemma display_rows_elem_of start rows e : forall i,
  e ∈ display_rows start i rows -> exists n li, e = result_row n li.
Proof.
  induction rows as [|li rows IH]; intros i He; simpl in He.
  - now apply elem_of_nil in He.
  - apply elem_of_cons in He as [->|He]; [now eexists _, _ | eauto].
Qed.

(** A line that starts with the letter [t] is on a page only as a hint. *)
Lemma display_page_hint w links t :
  Rich_print (String "t" t) ∈ _display_page w links
  <-> Rich_print (String "t" t) ∈ page_hints w (Py.len links).
Proof.
  rewrite display_page_eq, !elem_of_app, !elem_of_cons, elem_of_nil.
  split; [|tauto].
  intros [Hrow | [[Hfoot | [Hblank | []]] | Hhint]]; [| | |exact Hhint].
  - apply display_rows_elem_of in Hrow as (n & li & Hrow).
    injection Hrow as Hrow. symmetry in Hrow.
    now apply fstring_str_head in Hrow.
  - injection Hfoot as Hfoot. symmetry in Hfoot.
    now apply fstring_str_head in Hfoot.
  - discriminate Hblank.
Qed.

(** X9.  The page offers [back] exactly when the pager accepts it: the hint
    is on the page if and only if the answer [back] moves to the previous
    window rather than being refused. *)
Theorem back_hint_iff_back_accepted (w : Z * Z) (links : list Link)
    (page_size : Z) :
  Rich_print "type `back` to see previous page" ∈ _display_page w links
  <-> succeeds (retreat w page_size (Py.len links)).
Proof.
  rewrite display_page_hint, retreat_eq. unfold page_hints, succeeds.
  rewrite !elem_of_app, elem_of_cons, elem_of_nil.
  destruct (snd w <? Py.len links), (Z.eqb_spec (fst w) 0); simpl;
    rewrite ?elem_of_cons, ?elem_of_nil; split; intros Hx;
    try reflexivity; try discriminate; try tauto;
    repeat (destruct Hx as [Hx|Hx]); try discriminate; try contradiction.
Qed.

(** X10.  With a page size of at least one, whenever the answer [more] is
    accepted the page had offered it: the hint to type [more] is on the page
    of every window from which [more] moves on. *)
Theorem more_accepted_was_offered (w : Z * Z) (links : list Link)
    (page_size : Z) :
  1 <= page_size ->
  succeeds (advance w page_size (Py.len links)) ->
  Rich_print "type `more` to see more results" ∈ _display_page w links.
Proof.
  intros Hp Hok. apply display_page_hint. unfold page_hints.
  rewrite advance_eq in Hok. unfold succeeds in Hok.
  destruct (Z.gtb_spec (snd w + page_size) (Py.len links)) as [|Hle];
    [discriminate Hok|].
  destruct (Z.ltb_spec (snd w) (Py.len links)); [|lia].
  apply elem_of_app. left. apply elem_of_cons. now left.
Qed.

Lemma more_accepted_was_offered_witness :
  Rich_print "type `more` to see more results"
  ∈ _display_page (0, 5) (sample_links 12).
Proof.
  apply (more_accepted_was_offered (0, 5) (sample_links 12) 5);
    [lia | reflexivity].
Defined.

(** ** What the command opens *)

Lemma display_page_prints w links e :
  e ∈ _display_page w links -> exists s, e = Rich_print s.
Proof.
  rewrite display_page_eq, !elem_of_app. unfold page_hints.
  intros [Hrow | [Hfoot | Hhint]].
  - apply display_rows_elem_of in Hrow as (n & li & ->). now eexists.
  - rewrite !elem_of_cons, elem_of_nil in Hfoot.
    destruct Hfoot as [-> | [-> | []]]; now eexists.
  - destruct (snd w <? Py.len links), (negb (fst w =? 0));
      rewrite !elem_of_app, ?elem_of_cons, ?elem_of_nil in Hhint;
      repeat (destruct Hhint as [Hhint|Hhint]);
      try contradiction; subst e; now eexists.
Qed.

Lemma shown_launch out w links s u :
  Typer_launch u ∈ out ++ _display_page w links ++ [Prompt_ask s] ->
  Typer_launch u ∈ out.
Proof.
  rewrite !elem_of_app, elem_of_cons, elem_of_nil.
  intros [Hout | [Hpage | [Hask | []]]]; [exact Hout | | discriminate Hask].
  apply display_page_prints in Hpage as (s' & Hpage). discriminate Hpage.
Qed.

(** The loop opens nothing but the link of one of the results. *)
Lemma interact_launches links page_size u : forall answers w out,
  Typer_launch u ∈ fst (interact links page_size answers w out) ->
  Typer_launch u ∈ out \/ exists li, li ∈ links /\ link li = u.
Proof.
  induction answers as [|answer answers IH]; intros w out.
  - simpl. intros Hu. left. eapply shown_launch, Hu.
  - rewrite interact_cons. cbv zeta.
    destruct (cancel _).
    { simpl. rewrite elem_of_app, elem_of_cons, elem_of_nil.
      intros [Hu | [Hu | []]]; [|discriminate Hu].
      left. eapply shown_launch, Hu. }
    destruct (tuple_ne _ _).
    { intros Hu. apply IH in Hu as [Hu|Hu]; [|now right].
      left. eapply shown_launch, Hu. }
    destruct (reason _) as [m|].
    { intros Hu. apply IH in Hu as [Hu|Hu]; [|now right].
      apply elem_of_app in Hu as [Hu|Hu].
      - left. eapply shown_launch, Hu.
      - apply elem_of_cons in Hu as [Hu|Hu]; [discriminate Hu|].
        now apply elem_of_nil in Hu. }
    destruct (Py.getitem links _) as [li|] eqn:Hli; simpl.
    + rewrite elem_of_app, !elem_of_cons, elem_of_nil.
      intros [Hu | [Hu | [Hu | []]]]; [| |discriminate Hu].
      * left. eapply shown_launch, Hu.
      * injection Hu as ->. right. exists li.
        split; [eapply getitem_elem_of, Hli | reflexivity].
    + intros Hu. left. eapply shown_launch, Hu.
Qed.

(** One turn of the extraction loop, on any element. *)
Lemma collect_cons mode a rest acc :
  collect mode (a :: rest) acc =
  match anchor_span a, anchor_href a, anchor_type_div a with
  | Some s, Some h, Some t =>
      match LinkType.of_value t with
      | None => ([], inl (Raised ValueError))
      | Some c =>
          if skipped mode c then collect mode rest acc
          else collect mode rest (acc ++ [mkLink s h c])
      end
  | _, _, _ =>
      ([Rich_print "[red bold]ERROR[/red bold]"], inl (Returned (mkExit 1)))
  end.
Proof. destruct a as [[s|] [h|] [t|]]; reflexivity. Qed.

(** Every record the loop leaves was read off an element of the page that
    has the three parts, a known category and passes the filter. *)
Lemma collect_links mode anchors : forall acc printed links,
  collect mode anchors acc = (printed, inr links) ->
  forall li, li ∈ links ->
    li ∈ acc
    \/ exists a, a ∈ anchors
         /\ anchor_span a = Some (text li)
         /\ anchor_href a = Some (link li)
         /\ (exists t, anchor_type_div a = Some t
                       /\ LinkType.of_value t = Some (link_type li))
         /\ skipped mode (link_type li) = false.
Proof.
  induction anchors as [|a anchors IH]; intros acc printed links Hc li Hli.
  - injection Hc as _ <-. now left.
  - rewrite collect_cons in Hc.
    destruct (anchor_span a) as [s|] eqn:Hs; [|discriminate Hc].
    destruct (anchor_href a) as [h|] eqn:Hh; [|discriminate Hc].
    destruct (anchor_type_div a) as [t|] eqn:Ht; [|discriminate Hc].
    destruct (LinkType.of_value t) as [c|] eqn:Hv; [|discriminate Hc].
    destruct (skipped mode c) eqn:Hskip.
    + destruct (IH _ _ _ Hc li Hli) as [Hacc | (a' & Ha' & Hrest)];
        [now left|].
      right. exists a'. split; [now apply elem_of_cons; right | exact Hrest].
    + destruct (IH _ _ _ Hc li Hli) as [Hacc | (a' & Ha' & Hrest)].
      * apply elem_of_app in Hacc as [Hacc|Hnew]; [now left|].
        apply elem_of_cons in Hnew as [->|Hnew];
          [|now apply elem_of_nil in Hnew].
        right. exists a. simpl.
        split; [apply elem_of_cons; now left|]. repeat split; eauto.
      * right. exists a'.
        split; [now apply elem_of_cons; right | exact Hrest].
Qed.

(** When the loop ends the command it has printed at most [ERROR]. *)
Lemma collect_stops mode anchors : forall acc printed o,
  collect mode anchors acc = (printed, inl o) ->
  forall e, e ∈ printed -> e = Rich_print "[red bold]ERROR[/red bold]".
Proof.
  induction anchors as [|a anchors IH]; intros acc printed o Hc e He.
  - discriminate Hc.
  - rewrite collect_cons in Hc.
    destruct (anchor_span a), (anchor_href a), (anchor_type_div a) as [t|];
      try (injection Hc as <- _; apply elem_of_cons in He as [->|He];
           [reflexivity | now apply elem_of_nil in He]).
    destruct (LinkType.of_value t) as [c|].
    + destruct (skipped mode c); eapply IH; eauto.
    + injection Hc as <- _. now apply elem_of_nil in He.
Qed.

(** X11.  Whatever the page, the filter, the page size and the answers, the
    only thing [search] ever opens is the [href] of an element of the page
    that has its span and a known category label, and whose category passes
    the filter. *)
Theorem only_page_links_are_opened (links_html : list Anchor)
    (mode : LinkTypeOptions.t) (page_size : Z) (answers : list string)
    (u : string) :
  Typer_launch u ∈ fst (search links_html mode page_size answers) ->
  exists a t c,
    a ∈ links_html
    /\ anchor_href a = Some u
    /\ is_Some (anchor_span a)
    /\ anchor_type_div a = Some t
    /\ LinkType.of_value t = Some c
    /\ (mode = LinkTypeOptions.both \/ category_of_mode mode = Some c).
Proof.
  unfold search.
  destruct (collect mode links_html []) as [printed [o|links]] eqn:Hc;
    cbn [fst]; intros Hu.
  - exfalso. rewrite elem_of_app, elem_of_cons, elem_of_nil in Hu.
    destruct Hu as [[Hu | []] | Hu]; [discriminate Hu|].
    apply (collect_stops _ _ _ _ _ Hc) in Hu. discriminate Hu.
  - apply interact_launches in Hu as [Hu | (li & Hli & <-)].
    + exfalso. rewrite elem_of_app, elem_of_cons, elem_of_nil in Hu.
      destruct Hu as [[Hu | []] | Hu]; [discriminate Hu|].
      assert (printed = []) as ->; [|now apply elem_of_nil in Hu].
      clear Hu. revert Hc. generalize (@nil Link).
      induction links_html as [|a rest IH]; intros acc Hc;
        [now injection Hc as <- _|].
      rewrite collect_cons in Hc.
      destruct (anchor_span a), (anchor_href a), (anchor_type_div a) as [t|];
        try discriminate Hc.
      destruct (LinkType.of_value t) as [c|]; [|discriminate Hc].
      destruct (skipped mode c); eapply IH; exact Hc.
    + destruct (collect_links _ _ _ _ _ Hc li Hli)
        as [Hnil | (a & Ha & Hs & Hh & (t & Ht & Hv) & Hskip)];
        [now apply elem_of_nil in Hnil|].
      exists a, t, (link_type li). repeat split; try assumption.
      * rewrite Hs. now eexists.
      * now apply skipped_spec.
Qed.

Lemma only_page_links_are_opened_witness :
  exists a t c,
    a ∈ map anchor_of (sample_links 3)
    /\ anchor_href a = Some "https://docs.snowflake.com/t2"
    /\ is_Some (anchor_span a)
    /\ anchor_type_div a = Some t
    /\ LinkType.of_value t = Some c
    /\ (LinkTypeOptions.doc = LinkTypeOptions.both
        \/ category_of_mode LinkTypeOptions.doc = Some c).
Proof.
  apply (only_page_links_are_opened (map anchor_of (sample_links 3))
           LinkTypeOptions.doc 5 ["1"]).
  vm_compute. apply list_elem_of_In. simpl. tauto.
Defined.

(** ** The extraction loop on elements it cannot read *)

Lemma collect_app_records mode good rest : forall acc,
  exists acc', collect mode (map anchor_of good ++ rest) acc
               = collect mode rest acc'.
Proof.
  induction good as [|r good IH]; intros acc; [now exists acc|].
  simpl map. simpl app. rewrite collect_cons_record.
  destruct (skipped mode (link_type r)); apply IH.
Qed.

(** X12.  The first element of the page that lacks its span, its [href]
    string or its category marker ends the command: [search] prints the
    heading and [ERROR] and returns [typer.Exit(1)], whatever follows that
    element and whatever the filter, the page size and the answers; no page
    is shown, nothing is asked, nothing is opened. *)
Theorem malformed_element_ends_search (mode : LinkTypeOptions.t)
    (good : list Link) (bad : Anchor) (rest : list Anchor) (page_size : Z)
    (answers : list string) :
  malformed bad ->
  search (map anchor_of good ++ bad :: rest) mode page_size answers
  = ([Rich_print "[bold blue]Choose the topic[/bold blue]";
      Rich_print "[red bold]ERROR[/red bold]"],
     Returned (mkExit 1)).
Proof.
  intros Hbad. unfold search.
  destruct (collect_app_records mode good (bad :: rest) []) as (acc & ->).
  rewrite collect_cons.
  destruct bad as [[s|] [h|] [t|]]; try reflexivity.
  destruct Hbad as [Hx | [Hx | Hx]]; discriminate Hx.
Qed.

Lemma malformed_element_ends_search_witness :
  search (map anchor_of (sample_links 2)
            ++ mkAnchor (Some "Time travel") None (Some "Documentation")
            :: map anchor_of (sample_links 1))
    LinkTypeOptions.both 5 ["1"]
  = ([Rich_print "[bold blue]Choose the topic[/bold blue]";
      Rich_print "[red bold]ERROR[/red bold]"],
     Returned (mkExit 1)).
Proof.
  apply (malformed_element_ends_search LinkTypeOptions.both (sample_links 2)).
  right. left. reflexivity.
Defined.

(** X13.  An element that has its three parts but a category label other
    than [Documentation] and [Knowledge Base] makes [search] raise
    [ValueError], with no [ERROR] line, even when the filter would have left
    the element out; nothing after it is read. *)
Theorem unknown_category_raises (mode : LinkTypeOptions.t) (good : list Link)
    (a : Anchor) (rest : list Anchor) (page_size : Z) (answers : list string)
    (t : string) :
  is_Some (anchor_span a) ->
  is_Some (anchor_href a) ->
  anchor_type_div a = Some t ->
  t <> "Documentation" ->
  t <> "Knowledge Base" ->
  search (map anchor_of good ++ a :: rest) mode page_size answers
  = ([Rich_print "[bold blue]Choose the topic[/bold blue]"],
     Raised ValueError).
Proof.
  intros [s Hs] [h Hh] Ht Hdoc Hkb. unfold search.
  destruct (collect_app_records mode good (a :: rest) []) as (acc & ->).
  rewrite collect_cons, Hs, Hh, Ht. unfold LinkType.of_value.
  apply String.eqb_neq in Hdoc, Hkb. simpl LinkType.value.
  now rewrite Hdoc, Hkb.
Qed.

Lemma unknown_category_raises_witness :
  search [mkAnchor (Some "Release notes") (Some "/release-notes")
            (Some "Release Notes")]
    LinkTypeOptions.doc 5 ["1"]
  = ([Rich_print "[bold blue]Choose the topic[/bold blue]"],
     Raised ValueError).
Proof.
  refine (unknown_category_raises LinkTypeOptions.doc []
            (mkAnchor (Some "Release notes") (Some "/release-notes")
               (Some "Release Notes")) [] 5 ["1"] "Release Notes"
            _ _ _ _ _);
    [now eexists | now eexists | reflexivity | discriminate | discriminate].
Defined.

(** X14.  The two single-category filters split the results of the filter
    [both]: the records kept for [doc] followed by those kept for [k_base]
    are a rearrangement of all the records, so each record is shown under
    exactly one of the two filters. *)
Theorem doc_and_k_base_split_the_results (records : list Link) :
  exists docs k_bases,
    collect LinkTypeOptions.doc (map anchor_of records) [] = ([], inr docs)
    /\ collect LinkTypeOptions.knowledge_base (map anchor_of records) []
       = ([], inr k_bases)
    /\ docs ++ k_bases ≡ₚ records
    /\ (length docs + length k_bases = length records)%nat
    /\ (forall r, r ∈ docs -> r ∉ k_bases).
Proof.
  exists (filter (fun r => link_type r = LinkType.doc) records),
         (filter (fun r => link_type r = LinkType.knowledge_base) records).
  split; [now rewrite (collect_category _ LinkType.doc)|].
  split; [now rewrite (collect_category _ LinkType.knowledge_base)|].
  assert (Hperm :
    filter (fun r => link_type r = LinkType.doc) records
    ++ filter (fun r => link_type r = LinkType.knowledge_base) records
    ≡ₚ records).
  { rewrite (list_filter_iff
               (fun r => link_type r = LinkType.knowledge_base)
               (fun r => ~ link_type r = LinkType.doc)).
    - apply filter_app_complement.
    - intros r. destruct (link_type r); split; congruence. }
  split; [exact Hperm|].
  split; [rewrite <- length_app; now rewrite Hperm|].
  intros r Hd Hk. apply list_elem_of_filter in Hd as [Hd _].
  apply list_elem_of_filter in Hk as [Hk _]. congruence.
Qed.

(** ** The address of the request *)

Section Request.

Local Ltac by_cases c :=
  destruct c as [[] [] [] [] [] [] [] []]; vm_compute; reflexivity.

Lemma quote_char_url_chars c :
  forallb url_char
    (list_ascii_of_string (String.concat "" (map Url.quote_byte (Url.utf8 c))))
  = true.
Proof. by_cases c. Qed.

Lemma quote_safe_char c :
  Url.always_safe (Py.ord c) = true ->
  String.concat "" (map Url.quote_byte (Url.utf8 c)) = String c EmptyString.
Proof.
  destruct c as [[] [] [] [] [] [] [] []]; vm_compute;
    intros Hsafe; try reflexivity; discriminate Hsafe.
Qed.

End Request.

Lemma append_cons x a b :
  String.append (String x a) b = String x (String.append a b).
Proof. reflexivity. Qed.

Lemma append_nil b : String.append EmptyString b = b.
Proof. reflexivity. Qed.

Lemma chars_append a b :
  list_ascii_of_string (String.append a b)
  = list_ascii_of_string a ++ list_ascii_of_string b.
Proof.
  induction a as [|c a IH]; [reflexivity|].
  rewrite append_cons. simpl. now rewrite IH.
Qed.

Lemma append_assoc a b c :
  String.append (String.append a b) c = String.append a (String.append b c).
Proof.
  induction a as [|x a IH]; [reflexivity|].
  rewrite !append_cons. now rewrite IH.
Qed.

Lemma quote_plus_append a b :
  Url.quote_plus (String.append a b)
  = String.append (Url.quote_plus a) (Url.quote_plus b).
Proof.
  induction a as [|c a IH]; [reflexivity|].
  rewrite append_cons. cbn [Url.quote_plus]. now rewrite IH, append_assoc.
Qed.

Lemma quote_plus_url_chars s :
  forallb url_char (list_ascii_of_string (Url.quote_plus s)) = true.
Proof.
  induction s as [|c s IH]; simpl; [reflexivity|].
  rewrite chars_append, forallb_app, IH, quote_char_url_chars. reflexivity.
Qed.

(** X15.  Whatever the words of the prompt, the query that [search] puts in
    the address is made of letters, digits, [_.-~], [+] and [%] only: it
    holds no [&], [=], [#], [?], [/] or space, so the prompt can neither add
    a parameter to the request nor cut its [limit=100] off. *)
Theorem query_is_url_safe (prompt : list string) (c : ascii) :
  c ∈ list_ascii_of_string (Url.quote_plus (Url.join " " prompt)) ->
  (Url.always_safe (Py.ord c) = true \/ c = "+"%char \/ c = "%"%char)
  /\ c <> "&"%char /\ c <> "="%char /\ c <> "#"%char /\ c <> "?"%char
  /\ c <> "/"%char /\ c <> " "%char.
Proof.
  intros Hc. apply list_elem_of_In in Hc.
  pose proof (quote_plus_url_chars (Url.join " " prompt)) as Hall.
  rewrite forallb_forall in Hall. specialize (Hall c Hc). clear Hc.
  split.
  - unfold url_char in Hall.
    apply orb_true_iff in Hall as [Hall|Hall];
      [apply orb_true_iff in Hall as [Hall|Hall]|].
    + now left.
    + right; left. now apply Ascii.eqb_eq.
    + right; right. now apply Ascii.eqb_eq.
  - repeat split; intros ->; discriminate Hall.
Qed.

Lemma query_is_url_safe_witness :
  ("6" <> "&")%char.
Proof.
  apply (query_is_url_safe ["stage"; "R&D 6/7"] "6").
  vm_compute. apply list_elem_of_In. simpl. tauto.
Defined.

Lemma quote_plus_plain word : plain word -> Url.quote_plus word = word.
Proof.
  induction word as [|c word IH]; intros Hplain; simpl; [reflexivity|].
  rewrite quote_safe_char by (apply Hplain, elem_of_cons; now left).
  simpl. rewrite IH; [reflexivity|].
  intros c' Hc'. apply Hplain, elem_of_cons. now right.
Qed.

(** X16.  For a prompt whose words are made of letters, digits and [_.-~]
    the query is the words themselves, joined by [+]. *)
Theorem plain_words_query (prompt : list string) :
  Forall plain prompt ->
  search_url prompt
  = fstring ["https://docs.snowflake.com/search?q="; Url.join "+" prompt;
             "&limit=100"].
Proof.
  intros Hplain. unfold search_url. cbv zeta.
  enough (Url.quote_plus (Url.join " " prompt) = Url.join "+" prompt)
    as -> by reflexivity.
  induction Hplain as [|word words Hword Hwords IH]; [reflexivity|].
  destruct words as [|word' words].
  - simpl. now apply quote_plus_plain.
  - change (Url.join " " (word :: word' :: words))
      with (String.append word
              (String.append " " (Url.join " " (word' :: words)))).
    change (Url.join "+" (word :: word' :: words))
      with (String.append word
              (String.append "+" (Url.join "+" (word' :: words)))).
    rewrite !quote_plus_append, IH, (quote_plus_plain word Hword).
    reflexivity.
Qed.

Lemma plain_words_query_witness :
  search_url ["time"; "travel"]
  = "https://docs.snowflake.com/search?q=time+travel&limit=100".
Proof.
  rewrite (plain_words_query ["time"; "travel"]); [reflexivity|].
  repeat constructor; intros c Hc; apply list_elem_of_In in Hc; simpl in Hc;
    repeat (destruct Hc as [<-|Hc]; [reflexivity|]); contradiction.
Defined.

(** ** Numbers as they are printed and as they are read *)

Lemma digit_char c k :
  Py.digit_val c = Some k ->
  Py.is_space c = false /\ Py.is_underscore c = false
  /\ (Py.ord c =? 43) = false /\ (Py.ord c =? 45) = false.
Proof.
  unfold Py.digit_val, Py.is_space, Py.is_underscore.
  destruct (Z.leb_spec 48 (Py.ord c)), (Z.leb_spec (Py.ord c) 57);
    simpl; try discriminate. intros _.
  repeat split; repeat (apply orb_false_iff; split);
    try apply andb_false_iff; try apply Z.eqb_neq; try lia;
    right; apply Z.leb_gt; lia.
Qed.

Lemma rstrip_digits s : digits_only s -> Py.rstrip s = s.
Proof.
  induction s as [|c s IH]; intros Hs; [reflexivity|].
  apply Forall_cons in Hs as [[k Hc] Hs]. simpl. rewrite (IH Hs).
  destruct (digit_char c k Hc) as (-> & _). now destruct s.
Qed.

(** On a string of digits, [int] is the value of the digits. *)
Lemma int_digits c s :
  digits_only (String c s) ->
  Py.int (String c s) = Py.unsigned_value (String c s).
Proof.
  intros Hs. pose proof Hs as Hs'.
  apply Forall_cons in Hs' as [[k Hc] _].
  destruct (digit_char c k Hc) as (Hsp & _ & Hplus & Hminus).
  unfold Py.int. cbn [Py.lstrip]. rewrite Hsp, (rstrip_digits _ Hs).
  now rewrite Hplus, Hminus.
Qed.

Lemma int_minus_digits s :
  digits_only s ->
  Py.int (String "-" s) = Z.opp <$> Py.unsigned_value s.
Proof.
  intros Hs. unfold Py.int.
  change (Py.lstrip (String "-" s)) with (String "-" s).
  cbn [Py.rstrip]. rewrite (rstrip_digits _ Hs).
  now destruct s.
Qed.

Lemma string_of_uint_digits d : digits_only (NilEmpty.string_of_uint d).
Proof.
  induction d; simpl; try constructor; try assumption;
    vm_compute; now eexists.
Qed.

Lemma digits_value_digit c k s acc prev :
  Py.digit_val c = Some k ->
  Py.digits_value acc prev (String c s) = Py.digits_value (10 * acc + k) true s.
Proof.
  intros Hc. destruct (digit_char c k Hc) as (_ & Hu & _).
  cbn [Py.digits_value]. now rewrite Hu, Hc.
Qed.

Lemma digits_value_uint d : forall acc prev,
  d <> Decimal.Nil \/ prev = true ->
  Py.digits_value acc prev (NilEmpty.string_of_uint d)
  = Some (uint_value acc d).
Proof.
  induction d; intros acc prev Hd;
    [destruct Hd as [Hd| ->]; [contradiction | reflexivity] | ..];
    cbn [NilEmpty.string_of_uint uint_value];
    erewrite digits_value_digit by (vm_compute; reflexivity);
    rewrite IHd by (now right); do 2 f_equal; lia.
Qed.

Lemma count_digits_uint d :
  Py.count_digits (NilEmpty.string_of_uint d)
  = Z.of_nat (Decimal.nb_digits d).
Proof.
  induction d; [reflexivity | ..];
    cbn [NilEmpty.string_of_uint Py.count_digits Decimal.nb_digits];
    rewrite IHd;
    match goal with
    | |- context [is_Some_dec ?x] =>
        let v := eval vm_compute in x in change x with v
    end; cbn [is_Some_dec]; lia.
Qed.

Lemma uint_value_pos d : forall acc : positive,
  uint_value (Z.pos acc) d = Z.pos (Pos.of_uint_acc d acc).
Proof.
  induction d; intros acc; cbn [uint_value Pos.of_uint_acc];
    [reflexivity | ..]; rewrite <- IHd; f_equal; lia.
Qed.

Lemma uint_value_N d : uint_value 0 d = Z.of_N (Pos.of_uint d).
Proof.
  induction d; cbn [uint_value Pos.of_uint]; [reflexivity | exact IHd | ..];
    exact (uint_value_pos d _).
Qed.

Lemma uint_value_lower d : forall acc,
  0 <= acc -> acc * 10 ^ Z.of_nat (Decimal.nb_digits d) <= uint_value acc d.
Proof.
  induction d; intros acc Hacc; cbn [uint_value Decimal.nb_digits];
    [simpl; lia | ..];
    (etrans; [|apply IHd; lia]);
    rewrite Nat2Z.inj_succ, Z.pow_succ_r by lia;
    pose proof (Z.pow_pos_nonneg 10 (Z.of_nat (Decimal.nb_digits d)));
    nia.
Qed.

(** The numeral of a positive number has no more digits than its size
    requires. *)
Lemma nb_digits_to_uint p (k : Z) :
  0 <= k -> Z.pos p < 10 ^ k ->
  Z.of_nat (Decimal.nb_digits (Pos.to_uint p)) <= k.
Proof.
  intros Hk Hp.
  pose proof (DecimalPos.Unsigned.of_to p) as Hof.
  pose proof (DecimalPos.Unsigned.to_of (Pos.to_uint p)) as Hnorm.
  rewrite Hof in Hnorm. simpl in Hnorm.
  pose proof (DecimalPos.Unsigned.to_uint_nonzero p) as Hnz.
  pose proof (uint_value_N (Pos.to_uint p)) as Hval.
  rewrite Hof in Hval. simpl in Hval.
  destruct (Pos.to_uint p) as [|d|d|d|d|d|d|d|d|d|d] eqn:Hd;
    [simpl; lia | | ..].
  { exfalso. rewrite DecimalFacts.unorm_D0 in Hnorm.
    destruct (Decimal.uint_eq_dec d Decimal.Nil) as [->|Hnil];
      [now apply Hnz|].
    pose proof (DecimalFacts.nb_digits_unorm d Hnil) as Hle.
    rewrite <- Hnorm in Hle. simpl in Hle. lia. }
  all: cbn [uint_value Decimal.nb_digits] in *;
    match type of Hval with
    | uint_value ?a _ = _ =>
        pose proof (uint_value_lower d a ltac:(lia)) as Hlow
    end;
    rewrite Hval in Hlow;
    destruct (Z.le_gt_cases (Z.of_nat (S (Decimal.nb_digits d))) k)
      as [Hle|Hgt]; [exact Hle | exfalso];
    assert (10 ^ k <= 10 ^ Z.of_nat (Decimal.nb_digits d))
      by (apply Z.pow_le_mono_r; lia);
    pose proof (Z.pow_pos_nonneg 10 (Z.of_nat (Decimal.nb_digits d)));
    nia.
Qed.

Lemma unsigned_value_to_uint p :
  Z.pos p < 10 ^ Py.max_str_digits ->
  NilZero.string_of_uint (Pos.to_uint p)
  = NilEmpty.string_of_uint (Pos.to_uint p)
  /\ digits_only (NilEmpty.string_of_uint (Pos.to_uint p))
  /\ (exists c s, NilEmpty.string_of_uint (Pos.to_uint p) = String c s)
  /\ Py.unsigned_value (NilEmpty.string_of_uint (Pos.to_uint p))
     = Some (Z.pos p).
Proof.
  intros Hp.
  pose proof (DecimalPos.Unsigned.to_uint_nonnil p) as Hnil.
  split; [now destruct (Pos.to_uint p)|].
  split; [apply string_of_uint_digits|].
  split; [destruct (Pos.to_uint p); try contradiction; simpl; eauto|].
  unfold Py.unsigned_value. rewrite count_digits_uint.
  pose proof (nb_digits_to_uint p Py.max_str_digits) as Hnb.
  destruct (Z.ltb_spec Py.max_str_digits
              (Z.of_nat (Decimal.nb_digits (Pos.to_uint p)))) as [Hlt|_].
  { unfold Py.max_str_digits in *. lia. }
  rewrite digits_value_uint by (now left).
  rewrite uint_value_N, DecimalPos.Unsigned.of_to. reflexivity.
Qed.

(** X17.  A number is read back as it is printed: for every integer [n] of
    at most 4300 digits, [int] of the text [str(n)] - the text that a page
    shows in front of a result - is [n] again. *)
Theorem int_of_str (n : Z) :
  - 10 ^ Py.max_str_digits < n < 10 ^ Py.max_str_digits ->
  Py.int (Py.str n) = Some n.
Proof.
  intros Hn. destruct n as [|p|p]; [reflexivity | |].
  - destruct (unsigned_value_to_uint p) as (Hs & Hd & (c & s & Hcs) & Hv);
      [lia|].
    unfold Py.str. cbn [Z.to_int NilZero.string_of_int]. rewrite Hs.
    rewrite Hcs in Hd |- *. rewrite int_digits by exact Hd.
    now rewrite <- Hcs.
  - destruct (unsigned_value_to_uint p) as (Hs & Hd & _ & Hv); [lia|].
    unfold Py.str. cbn [Z.to_int NilZero.string_of_int]. rewrite Hs.
    rewrite int_minus_digits by exact Hd. now rewrite Hv.
Qed.

Lemma int_of_str_witness : Py.int (Py.str 1024) = Some 1024.
Proof.
  apply (int_of_str 1024). unfold Py.max_str_digits.
  split; vm_compute; reflexivity.
Defined.

(** ** The pages that can be reached *)

(** X18.  With a page size [P] of at least 1 and at least [P] results, no
    window the loop reaches extends beyond the last full page: its end is at
    most [P * (N / P)], so when [N] is not a multiple of [P] the last
    [N mod P] results are on no page. *)
Theorem windows_stop_at_last_full_page (page_size result_len : Z)
    (w : Z * Z) :
  1 <= page_size <= result_len ->
  reachable page_size result_len w ->
  0 <= fst w /\ snd w <= page_size * (result_len / page_size).
Proof.
  intros [Hp HN] Hreach.
  destruct (reachable_within _ _ _ Hp Hreach) as [Hz|Hin];
    destruct (reachable_page _ _ _ Hreach) as (k & Hk & ->);
    cbn [fst snd] in *.
  - assert (k = 0) as -> by nia. split; [lia|].
    assert (1 <= result_len / page_size)
      by (apply Z.div_le_lower_bound; lia).
    nia.
  - split; [nia|].
    assert (k + 1 <= result_len / page_size)
      by (apply Z.div_le_lower_bound; lia).
    nia.
Qed.

Lemma windows_stop_at_last_full_page_witness :
  snd (5, 10) <= 5 * (12 / 5).
Proof.
  apply (windows_stop_at_last_full_page 5 12 (5, 10)); [lia|].
  apply (reachable_step 5 12 (0, 5) "more"), reachable_init.
Defined.

(** ** Different prompts, different requests *)

Lemma unquote_quote_char c t :
  unquote (String.append (String.concat "" (map Url.quote_byte (Url.utf8 c))) t)
  = String c (unquote t).
Proof. destruct c as [[] [] [] [] [] [] [] []]; reflexivity. Qed.

Lemma unquote_quote_plus s : unquote (Url.quote_plus s) = s.
Proof.
  induction s as [|c s IH]; [reflexivity|].
  cbn [Url.quote_plus]. now rewrite unquote_quote_char, IH.
Qed.

Lemma length_append a b :
  String.length (String.append a b) = (String.length a + String.length b)%nat.
Proof.
  induction a as [|c a IH]; [reflexivity|].
  rewrite append_cons. simpl. now rewrite IH.
Qed.

Lemma append_cancel_r a b c :
  String.append a c = String.append b c -> a = b.
Proof.
  revert b. induction a as [|x a IH]; intros [|y b] Heq.
  - reflexivity.
  - apply (f_equal String.length) in Heq.
    rewrite append_nil, append_cons in Heq. simpl in Heq.
    rewrite length_append in Heq. lia.
  - apply (f_equal String.length) in Heq.
    rewrite append_nil, append_cons in Heq. simpl in Heq.
    rewrite length_append in Heq. lia.
  - rewrite !append_cons in Heq. injection Heq as -> Heq.
    f_equal. now apply IH.
Qed.

(** X19.  The request tells the prompts apart: two prompts get the same
    address if and only if their words, joined by spaces, are the same
    text. *)
Theorem same_request_iff_same_text (prompt1 prompt2 : list string) :
  search_url prompt1 = search_url prompt2
  <-> Url.join " " prompt1 = Url.join " " prompt2.
Proof.
  split; [|unfold search_url; now intros ->].
  unfold search_url, fstring. cbv zeta. intros Heq.
  change (String.concat "" [?a; ?b; ?c])
    with (String.append a (String.append "" (String.append b
            (String.append "" c)))) in Heq.
  apply (inj _) in Heq. rewrite !append_nil in Heq.
  apply append_cancel_r in Heq.
  apply (f_equal unquote) in Heq. now rewrite !unquote_quote_plus in Heq.
Qed.
